(* Verification development for the LLM code deployment service
   (app.py, validator.py, code_generator.py, github_manager.py, evaluator.py).

   The Python modules are embedded shallowly:
   - JSON / Python values as the inductive [pyval];
   - Python exceptions as the error monad [Result];
   - network, git and clock effects as explicit inputs (the response of each
     POST attempt, the current time rendered as strings) and, where the code
     performs observable effects in sequence, as an explicit trace. *)

From Stdlib Require Import ZArith Lia Bool Ascii String.
From stdpp Require Import base list strings pretty.

Open Scope string_scope.
Set Warnings "-register-all".

(* ------------------------------------------------------------------------ *)
(** * Python values and exceptions *)

(** Values as produced by [request.get_json()]: JSON null, booleans,
    integers, strings, arrays and objects (objects as association lists in
    key order; the JSON decoder keeps one entry per key). *)
Inductive pyval : Type :=
| VNone
| VBool (b : bool)
| VInt (z : Z)
| VStr (s : string)
| VList (l : list pyval)
| VDict (d : list (string * pyval)).

(** The Python exceptions the embedded code can raise. *)
Inductive exc : Type :=
| TypeError
| AttributeError
| KeyError (k : string)
| ValueError (msg : string)
| IndexError
| DecodeError
| RuntimeFault (msg : string).

Inductive Result (A : Type) : Type :=
| Ok (a : A)
| Raise (e : exc).
Arguments Ok {A} a.
Arguments Raise {A} e.

(** Sequencing: an exception aborts the rest of the block. *)
Definition rbind {A B : Type} (m : Result A) (f : A -> Result B) : Result B :=
  match m with Ok a => f a | Raise e => Raise e end.

Notation "'let*' x ':=' m 'in' k" := (rbind m (fun x => k))
  (at level 200, x name, m at level 100, k at level 200).

(** [dict.get(k)] / [k in dict]: first entry with key [k]. *)
Fixpoint dict_get (k : string) (d : list (string * pyval)) : option pyval :=
  match d with
  | [] => None
  | (k', v) :: d' => if String.eqb k k' then Some v else dict_get k d'
  end.

Definition dict_has (k : string) (d : list (string * pyval)) : bool :=
  match dict_get k d with Some _ => true | None => false end.

(** [d[k]]: subscript on a dict raises [KeyError]; on any other value of
    [pyval] it raises [TypeError] (list, str, int, bool and None are not
    indexable by a string key). *)
Definition py_getitem (v : pyval) (k : string) : Result pyval :=
  match v with
  | VDict d => match dict_get k d with Some x => Ok x | None => Raise (KeyError k) end
  | _ => Raise TypeError
  end.

(** Python truthiness ([if x:] / [not x]). *)
Definition py_truthy (v : pyval) : bool :=
  match v with
  | VNone => false
  | VBool b => b
  | VInt z => negb (Z.eqb z 0)
  | VStr s => negb (String.eqb s "")
  | VList l => negb (length l =? 0)%nat
  | VDict d => negb (length d =? 0)%nat
  end.

(* ------------------------------------------------------------------------ *)
(** * String helpers with Python semantics *)

(** [needle in hay] for strings. *)
Fixpoint str_contains (needle hay : string) : bool :=
  if String.prefix needle hay then true
  else match hay with
       | EmptyString => false
       | String _ hay' => str_contains needle hay'
       end.

(** [s.startswith(p)]. *)
Definition startswith (p s : string) : bool := String.prefix p s.

(** [sep.join(l)]. *)
Fixpoint join (sep : string) (l : list string) : string :=
  match l with
  | [] => ""
  | [x] => x
  | x :: l' => x +:+ sep +:+ join sep l'
  end.

(** [s[:n]] (slicing clamps at the end of the string). *)
Definition prefix_slice (n : nat) (s : string) : string := String.substring 0 n s.

(** The one-character string holding a double quote. *)
Definition dq : string := String (ascii_of_nat 34) EmptyString.
(** The newline [chr(10)]. *)
Definition nl : string := String (ascii_of_nat 10) EmptyString.

(** [str(v)] as used by f-strings. Strings print as themselves; containers
    print with [repr] of their elements (quotes around strings, no escape
    processing). *)
Fixpoint py_repr (v : pyval) : string :=
  match v with
  | VNone => "None"
  | VBool true => "True"
  | VBool false => "False"
  | VInt z => pretty z
  | VStr s => "'" +:+ s +:+ "'"
  | VList l => "[" +:+ join ", " (map py_repr l) +:+ "]"
  | VDict d => "{" +:+ join ", " (map (fun kv => "'" +:+ kv.1 +:+ "': " +:+ py_repr kv.2) d) +:+ "}"
  end.

Definition py_str (v : pyval) : string :=
  match v with VStr s => s | _ => py_repr v end.

(* ------------------------------------------------------------------------ *)
(** * evaluator.py: [notify_evaluation_api] *)

Module Evaluator.

Definition MAX_RETRIES : nat := 5.
Definition RETRY_DELAYS : list nat := [1; 2; 4; 8; 16].

(** What one [requests.post(...)] call produces: a response (status code,
    [response.text], and [inl j] when [response.json()] parses, [inr msg]
    when it raises with message [msg]), a timeout, another [RequestException], or any other
    exception. *)
Inductive post_outcome : Type :=
| PResp (status : Z) (text : string) (json : string + string)
| PTimeout
| PRequestExc (msg : string)
| POtherExc (msg : string).

(** Observable effects of the loop, in order. *)
Inductive event : Type :=
| EPost (attempt : nat)
| ESleep (seconds : nat).

(** The returned dict: [{'success': True, 'response': ...}] or
    [{'success': False, 'error': ...}]. *)
Inductive notify_result : Type :=
| NotifyOk (response : string)
| NotifyFail (error : string).

Definition success (r : notify_result) : bool :=
  match r with NotifyOk _ => true | NotifyFail _ => false end.

(** The common tail of every failing branch: sleep [RETRY_DELAYS[attempt]]
    and continue, or give up on the last attempt with [final]. The index is
    always in range since [attempt < MAX_RETRIES - 1 < length RETRY_DELAYS]. *)
Definition retry_or_fail (attempt : nat) (final : string)
    (continue : list event * notify_result) : list event * notify_result :=
  if (attempt <? MAX_RETRIES - 1)%nat
  then (ESleep (nth attempt RETRY_DELAYS 0) :: continue.1, continue.2)
  else ([], NotifyFail final).

(** [for attempt in range(MAX_RETRIES)], with [fuel] the number of
    iterations left and [post attempt] the outcome of the POST made at that
    attempt. *)
Fixpoint notify_loop (post : nat -> post_outcome) (attempt fuel : nat)
    : list event * notify_result :=
  match fuel with
  | O => ([], NotifyFail "Failed after maximum retries")
  | S fuel' =>
      let rest := notify_loop post (S attempt) fuel' in
      let '(evs, r) :=
        match post attempt with
        | PResp status text json =>
            if Z.eqb status 200 then
              if String.eqb text "" then ([], NotifyOk "{}")
              else match json with
                   | inl j => ([], NotifyOk j)
                   | inr msg =>
                       (* response.json() raises: caught by [except Exception] *)
                       retry_or_fail attempt ("Unexpected error: " +:+ msg) rest
                   end
            else retry_or_fail attempt
                   ("Evaluation API returned status " +:+ pretty status +:+ ": " +:+ text) rest
        | PTimeout => retry_or_fail attempt "Request timeout after multiple retries" rest
        | PRequestExc msg => retry_or_fail attempt ("Request failed: " +:+ msg) rest
        | POtherExc msg => retry_or_fail attempt ("Unexpected error: " +:+ msg) rest
        end in
      (EPost attempt :: evs, r)
  end.

Definition notify_evaluation_api (post : nat -> post_outcome) : list event * notify_result :=
  notify_loop post 0 MAX_RETRIES.

(** The sleeps of a trace, in order. *)
Definition sleeps (evs : list event) : list nat :=
  omap (fun e => match e with ESleep d => Some d | _ => None end) evs.

(** The attempts of a trace, in order. *)
Definition attempts (evs : list event) : list nat :=
  omap (fun e => match e with EPost a => Some a | _ => None end) evs.

End Evaluator.

(* ------------------------------------------------------------------------ *)
(** * validator.py *)

Module Validator.

Definition required_fields : list string :=
  ["email"; "secret"; "task"; "round"; "nonce"; "brief"; "evaluation_url"].

(** [needle in v] for a string [needle]: substring test on a str, element
    test on a list (a str equals only a str), key test on a dict; any other
    operand raises [TypeError] ("argument of type 'int' is not iterable"). *)
Definition py_contains (needle : string) (v : pyval) : Result bool :=
  match v with
  | VStr s => Ok (str_contains needle s)
  | VList l => Ok (existsb (fun x => match x with VStr s => String.eqb s needle | _ => false end) l)
  | VDict d => Ok (dict_has needle d)
  | _ => Raise TypeError
  end.

(** [s.split(sep)] for a one-character separator. *)
Fixpoint split_on (c : ascii) (s : string) : list string :=
  match s with
  | EmptyString => [""]
  | String c' s' =>
      if Ascii.eqb c c' then "" :: split_on c s'
      else match split_on c s' with
           | w :: ws => String c' w :: ws
           | [] => [String c' EmptyString]
           end
  end.

(** [email.split('@')[-1]]: only a str has [split]. *)
Definition email_domain (v : pyval) : Result string :=
  match v with
  | VStr s => Ok (List.last (split_on "@"%char s) "")
  | _ => Raise AttributeError
  end.

(** [isinstance(x, int) and x >= 1]; [bool] is a subclass of [int]. *)
Definition is_positive_int (v : pyval) : bool :=
  match v with
  | VInt z => (1 <=? z)%Z
  | VBool b => b
  | _ => false
  end.

Definition is_nonempty_str (v : pyval) : bool :=
  match v with VStr s => negb (String.eqb s "") | _ => false end.

Definition is_list (v : pyval) : bool :=
  match v with VList _ => true | _ => false end.

(** The per-attachment loop: the index of the first bad attachment. *)
Fixpoint check_attachments (idx : nat) (l : list pyval) : option string :=
  match l with
  | [] => None
  | VDict d :: l' =>
      if dict_has "name" d && dict_has "url" d then check_attachments (S idx) l'
      else Some ("Attachment " +:+ pretty idx +:+ " must have 'name' and 'url' fields")
  | _ :: _ => Some ("Attachment " +:+ pretty idx +:+ " must be a dictionary")
  end.

(** [validate_request(payload)] for a dict payload; exceptions raised by
    the body propagate as [Raise]. *)
Definition validate_request (payload : list (string * pyval)) : Result (bool * string) :=
  let missing_fields := List.filter (fun f => negb (dict_has f payload)) required_fields in
  if negb (length missing_fields =? 0)%nat then
    Ok (false, "Missing required fields: " +:+ join ", " missing_fields)
  else
    let* email := py_getitem (VDict payload) "email" in
    let* has_at := py_contains "@" email in
    let* bad_email :=
      (if negb has_at then Ok true
       else let* domain := email_domain email in Ok (negb (str_contains "." domain))) in
    if bad_email then Ok (false, "Invalid email format") else
    let* round_num := py_getitem (VDict payload) "round" in
    if negb (is_positive_int round_num) then Ok (false, "Round must be a positive integer") else
    let* task := py_getitem (VDict payload) "task" in
    if negb (is_nonempty_str task) then Ok (false, "Task must be a non-empty string") else
    let* nonce := py_getitem (VDict payload) "nonce" in
    if negb (is_nonempty_str nonce) then Ok (false, "Nonce must be a non-empty string") else
    let* brief := py_getitem (VDict payload) "brief" in
    if negb (is_nonempty_str brief) then Ok (false, "Brief must be a non-empty string") else
    let* evaluation_url := py_getitem (VDict payload) "evaluation_url" in
    if negb (match evaluation_url with VStr s => startswith "http" s | _ => false end)
    then Ok (false, "Evaluation URL must be a valid HTTP(S) URL") else
    if (match dict_get "checks" payload with Some c => negb (is_list c) | None => false end)
    then Ok (false, "Checks must be a list") else
    match dict_get "attachments" payload with
    | Some (VList atts) =>
        match check_attachments 0 atts with
        | Some msg => Ok (false, msg)
        | None => Ok (true, "")
        end
    | Some _ => Ok (false, "Attachments must be a list")
    | None => Ok (true, "")
    end.

(** [verify_secret(provided_secret, expected_secret)]: the expected secret
    is the [STUDENT_SECRET] string ([""] when the variable is absent); the
    provided one is whatever the payload holds under ["secret"]. A str
    compares equal only to a str with the same characters. *)
Definition verify_secret (provided_secret : pyval) (expected_secret : string) : bool :=
  if String.eqb expected_secret "" then false
  else match provided_secret with
       | VStr s => String.eqb s expected_secret
       | _ => false
       end.

End Validator.

(* ------------------------------------------------------------------------ *)
(** * Long literals *)

(** The templates below contain double quotes; they are written with [^] in
    place of each double quote and [qq] puts the quotes back ([^] occurs in
    none of the source templates). Rocq string literals keep their line
    breaks, so the multi-line f-strings are written as they are in the
    source, with each [{expr}] hole concatenated in. *)
Fixpoint qq (s : string) : string :=
  match s with
  | EmptyString => EmptyString
  | String c s' => String (if Ascii.eqb c "^"%char then ascii_of_nat 34 else c) (qq s')
  end.

(* ------------------------------------------------------------------------ *)
(** * code_generator.py *)

Module CodeGenerator.

(** The generated artifact: the dict [{'index.html': ..., 'README.md': ...}]. *)
Definition artifact := list (string * string).

Inductive content : Type :=
| CBytes (b : list Byte.byte)
| CText (t : string).

(** A decoded attachment [{'name': ..., 'mime_type': ..., 'content': ...}]. *)
Record decoded := {
  att_name : pyval;
  mime_type : string;
  att_content : content
}.

(** API keys read from the environment ([""] when absent). *)
Record gen_config := {
  AIPIPE_API_KEY : string;
  ANTHROPIC_API_KEY : string;
  OPENAI_API_KEY : string
}.

Inductive provider := AIPipe | Anthropic | OpenAI.

Section Generator.

(** [base64.b64decode] and [bytes.decode('utf-8')], library functions the
    module calls: [None] when they raise. *)
Variable b64decode : string -> option (list Byte.byte).
Variable utf8_decode : list Byte.byte -> option string.

(** [try: body except Exception: handler]. *)
Definition py_try {A : Type} (body : Result A) (handler : Result A) : Result A :=
  match body with Ok a => Ok a | Raise _ => handler end.

(** [s.split(',', 1)] unpacked into two names: [ValueError] without a comma. *)
Fixpoint split_once (c : ascii) (s : string) : option (string * string) :=
  match s with
  | EmptyString => None
  | String c' s' =>
      if Ascii.eqb c c' then Some ("", s')
      else match split_once c s' with
           | Some (a, b) => Some (String c' a, b)
           | None => None
           end
  end.

(** [l[1]]. *)
Definition py_index1 (l : list string) : Result string :=
  match l with _ :: x :: _ => Ok x | _ => Raise IndexError end.

Definition is_text_mime (m : string) : bool :=
  startswith "text/" m || String.eqb m "application/json"
  || String.eqb m "application/javascript".

(** The [try] block of [decode_attachment]. *)
Definition decode_body (attachment : pyval) : Result (option decoded) :=
  let* url := py_getitem attachment "url" in
  match url with
  | VStr u =>
      if startswith "data:" u then
        match split_once ","%char u with
        | None => Raise (ValueError "not enough values to unpack")
        | Some (header, encoded) =>
            let* after_colon := py_index1 (Validator.split_on ":"%char header) in
            let mime := List.hd "" (Validator.split_on ";"%char after_colon) in
            match b64decode encoded with
            | None => Raise DecodeError
            | Some raw =>
                let* c :=
                  (if is_text_mime mime then
                     match utf8_decode raw with
                     | Some t => Ok (CText t)
                     | None => Raise DecodeError
                     end
                   else Ok (CBytes raw)) in
                let* name := py_getitem attachment "name" in
                Ok (Some {| att_name := name; mime_type := mime; att_content := c |})
            end
        end
      else Ok None
  | _ => Raise AttributeError (* url.startswith on a non-str *)
  end.

(** [decode_attachment(attachment)]: the handler logs
    [attachment.get('name', 'unknown')], which itself raises
    [AttributeError] when the attachment is not a dict. *)
Definition decode_attachment (attachment : pyval) : Result (option decoded) :=
  py_try (decode_body attachment)
    (match attachment with
     | VDict _ => Ok None
     | _ => Raise AttributeError
     end).

(** The loop [for attachment in attachments: ... if decoded: append]. *)
Fixpoint decode_all (attachments : list pyval) : Result (list decoded) :=
  match attachments with
  | [] => Ok []
  | a :: rest =>
      let* d := decode_attachment a in
      let* ds := decode_all rest in
      Ok (match d with Some x => x :: ds | None => ds end)
  end.

(** [build_generation_prompt(brief, checks, attachments)]. *)
Definition attachment_info (att : decoded) : string :=
  "- " +:+ py_str (att_name att) +:+ " (" +:+ mime_type att +:+ ")" +:+ nl +:+
  match att_content att with
  | CText t =>
      if (String.length t <? 1000)%nat
      then "  Content: " +:+ prefix_slice 500 t +:+ "..." +:+ nl
      else ""
  | CBytes _ => ""
  end.

Definition build_generation_prompt (brief : string) (checks : list pyval)
    (attachments : list decoded) : string :=
  let attachments_info :=
    match attachments with
    | [] => ""
    | _ => nl +:+ nl +:+ "ATTACHMENTS:" +:+ nl +:+ String.concat "" (map attachment_info attachments)
    end in
  let checks_info :=
    match checks with
    | [] => ""
    | _ => nl +:+ nl +:+ "VALIDATION CHECKS:" +:+ nl +:+
           join nl (map (fun c => "- " +:+ py_str c) checks)
    end in
  qq "Generate a complete, production-ready single-page web application based on the following requirements:

BRIEF:
" +:+ brief +:+ nl +:+ attachments_info +:+ nl +:+ checks_info +:+ qq "

REQUIREMENTS:
1. Create a single HTML file (index.html) with embedded CSS and JavaScript
2. Use modern, semantic HTML5
3. Include responsive design (mobile-friendly)
4. Use Bootstrap 5 from CDN for styling (unless specified otherwise)
5. Write clean, well-commented JavaScript
6. Handle errors gracefully
7. Make the page professional and user-friendly
8. Ensure all validation checks can pass
9. Include proper meta tags and title

OUTPUT FORMAT:
Provide the complete code in the following structure:

```html
<!DOCTYPE html>
<html lang=^en^>
<head>
    <!-- Your complete head section -->
</head>
<body>
    <!-- Your complete body content -->
</body>
</html>
```

Also provide a comprehensive README.md explaining:
- What the application does
- How to use it
- Technical implementation details
- How it satisfies the requirements

Generate ONLY production-ready, working code. No placeholders, no TODOs.".

(** The HTML page of [generate_template_code]. *)
Definition html_template (brief : string) : string :=
  qq "<!DOCTYPE html>
<html lang=^en^>
<head>
    <meta charset=^UTF-8^>
    <meta name=^viewport^ content=^width=device-width, initial-scale=1.0^>
    <title>Generated Application</title>
    <link href=^https://cdn.jsdelivr.net/npm/bootstrap@5.3.0/dist/css/bootstrap.min.css^ rel=^stylesheet^>
    <style>
        body {
            padding: 20px;
            background: linear-gradient(135deg, #667eea 0%, #764ba2 100%);
            min-height: 100vh;
        }
        .container {
            background: white;
            border-radius: 10px;
            padding: 30px;
            box-shadow: 0 10px 40px rgba(0,0,0,0.2);
            margin-top: 50px;
        }
        .app-title {
            color: #667eea;
            margin-bottom: 30px;
        }
    </style>
</head>
<body>
    <div class=^container^>
        <h1 class=^app-title^>Generated Application</h1>
        <div class=^alert alert-info^>
            <h5>Brief:</h5>
            <p>" +:+ brief +:+ qq "</p>
        </div>

        <div id=^app-content^>
            <p class=^text-muted^>Application implementation goes here.</p>
        </div>
    </div>

    <script src=^https://cdn.jsdelivr.net/npm/bootstrap@5.3.0/dist/js/bootstrap.bundle.min.js^></script>
    <script>
        // Application logic
        console.log('Application initialized');
    </script>
</body>
</html>".

(** [['- ' + check for check in checks]]: [str + non-str] raises
    [TypeError]. *)
Fixpoint dash_items (checks : list pyval) : Result (list string) :=
  match checks with
  | [] => Ok []
  | VStr s :: rest => let* r := dash_items rest in Ok (("- " +:+ s) :: r)
  | _ :: _ => Raise TypeError
  end.

(** [generate_template_code(brief, checks, attachments)]. *)
Definition generate_template_code (brief : string) (checks : list pyval)
    (attachments : list decoded) : Result artifact :=
  let html := html_template brief in
  let* requirements :=
    (match checks with
     | [] => Ok "No specific checks provided."
     | _ => let* items := dash_items checks in Ok (join nl items)
     end) in
  let readme_template :=
    "# Generated Application

## Overview
This application was automatically generated based on the following brief:

" +:+ brief +:+ "

## Requirements
" +:+ requirements +:+ "

## Usage
1. Open `index.html` in a web browser
2. The application will load and execute automatically

## Technical Details
- Built with HTML5, CSS3, and JavaScript
- Uses Bootstrap 5 for styling
- Responsive design for all devices

## License
MIT License
" in
  Ok [("index.html", html); ("README.md", readme_template)].

(** [generate_app_code(brief, checks, attachments)]: [backend p prompt] is
    [generate_with_aipipe] / [generate_with_anthropic] /
    [generate_with_openai] for provider [p] (the remote call followed by
    [parse_llm_response]), raising on any failure. *)
Definition generate_app_code (cfg : gen_config)
    (backend : provider -> string -> Result artifact)
    (brief : string) (checks : list pyval) (attachments : list pyval) : Result artifact :=
  let* decoded_attachments := decode_all attachments in
  let prompt := build_generation_prompt brief checks decoded_attachments in
  py_try
    (if negb (String.eqb (AIPIPE_API_KEY cfg) "") then backend AIPipe prompt
     else if negb (String.eqb (ANTHROPIC_API_KEY cfg) "") then backend Anthropic prompt
     else if negb (String.eqb (OPENAI_API_KEY cfg) "") then backend OpenAI prompt
     else generate_template_code brief checks decoded_attachments)
    (generate_template_code brief checks decoded_attachments).

End Generator.

End CodeGenerator.

(* ------------------------------------------------------------------------ *)
(** * github_manager.py *)

Module GithubManager.

(** [datetime.utcnow()] rendered the three ways the module formats it. *)
Record clock := {
  year : string;          (* str(datetime.utcnow().year) *)
  stamp : string;         (* strftime('%Y-%m-%d %H:%M:%S') *)
  compact_stamp : string  (* strftime('%Y%m%d-%H%M%S') *)
}.

Record gh_config := {
  GITHUB_TOKEN : string;
  GITHUB_USERNAME : string
}.

(** Python's [str.isalnum()] on one character. Strings are read as
    sequences of code points U+0000..U+00FF: ASCII letters and digits, and
    the Latin-1 letters, superscript digits and vulgar fractions, which
    Python also counts as alphanumeric. *)
Definition is_alnum (c : ascii) : bool :=
  let n := nat_of_ascii c in
  (((48 <=? n) && (n <=? 57)) || ((65 <=? n) && (n <=? 90)) || ((97 <=? n) && (n <=? 122))
  || (n =? 170) || (n =? 178) || (n =? 179) || (n =? 181) || (n =? 185) || (n =? 186)
  || ((188 <=? n) && (n <=? 190)) || ((192 <=? n) && (n <=? 214))
  || ((216 <=? n) && (n <=? 246)) || (248 <=? n))%nat.

Definition hyphen : ascii := "-"%char.

(** [s.strip('-')] on a list of characters. *)
Fixpoint lstrip_hyphen (l : list ascii) : list ascii :=
  match l with
  | c :: l' => if Ascii.eqb c hyphen then lstrip_hyphen l' else l
  | [] => []
  end.

Definition strip_hyphen (l : list ascii) : list ascii :=
  rev (lstrip_hyphen (rev (lstrip_hyphen l))).

(** [sanitize_repo_name(task_name)], at the instant [now]. *)
Definition sanitize_repo_name (now : clock) (task_name : string) : string :=
  let chars := list_ascii_of_string task_name in
  (* task_name.replace(' ', '-').replace('_', '-') *)
  let replaced := map (fun c => if Ascii.eqb c " "%char || Ascii.eqb c "_"%char
                                then hyphen else c) chars in
  (* ''.join(c for c in repo_name if c.isalnum() or c == '-') *)
  let kept := List.filter (fun c => is_alnum c || Ascii.eqb c hyphen) replaced in
  (* repo_name.strip('-') *)
  let stripped := strip_hyphen kept in
  (* if len(repo_name) > 100: repo_name = repo_name[:100] *)
  let capped := if (100 <? length stripped)%nat then take 100 stripped else stripped in
  match capped with
  | [] => "task-" +:+ compact_stamp now
  | _ => string_of_list_ascii capped
  end.

(** The keyword arguments of [user.create_repo(...)]. *)
Record create_repo_args := {
  repo_name : string;
  description : string;
  homepage : string;
  private : bool;
  has_issues : bool;
  has_wiki : bool;
  has_downloads : bool;
  auto_init : bool
}.

Record repo_info := {
  repo_url : string;
  commit_sha : string;
  pages_url : string
}.

(** Lines 33-60 of [create_and_deploy_repo]: the configuration checks and
    the arguments of the repository-creation call. *)
Definition create_repo_request (cfg : gh_config) (now : clock)
    (task_name brief : string) : Result create_repo_args :=
  if String.eqb (GITHUB_TOKEN cfg) "" then Raise (ValueError "GITHUB_TOKEN not configured") else
  if String.eqb (GITHUB_USERNAME cfg) "" then Raise (ValueError "GITHUB_USERNAME not configured") else
  Ok {| repo_name := sanitize_repo_name now task_name;
        description := "Auto-generated application: " +:+ prefix_slice 100 brief;
        homepage := "";
        private := false;
        has_issues := true;
        has_wiki := false;
        has_downloads := true;
        auto_init := false |}.

(** [get_mit_license()]. *)
Definition get_mit_license (now : clock) : string :=
  "MIT License

Copyright (c) " +:+ year now +:+ qq "

Permission is hereby granted, free of charge, to any person obtaining a copy
of this software and associated documentation files (the ^Software^), to deal
in the Software without restriction, including without limitation the rights
to use, copy, modify, merge, publish, distribute, sublicense, and/or sell
copies of the Software, and to permit persons to whom the Software is
furnished to do so, subject to the following conditions:

The above copyright notice and this permission notice shall be included in all
copies or substantial portions of the Software.

THE SOFTWARE IS PROVIDED ^AS IS^, WITHOUT WARRANTY OF ANY KIND, EXPRESS OR
IMPLIED, INCLUDING BUT NOT LIMITED TO THE WARRANTIES OF MERCHANTABILITY,
FITNESS FOR A PARTICULAR PURPOSE AND NONINFRINGEMENT. IN NO EVENT SHALL THE
AUTHORS OR COPYRIGHT HOLDERS BE LIABLE FOR ANY CLAIM, DAMAGES OR OTHER
LIABILITY, WHETHER IN AN ACTION OF CONTRACT, TORT OR OTHERWISE, ARISING FROM,
OUT OF OR IN CONNECTION WITH THE SOFTWARE OR THE USE OR OTHER DEALINGS IN THE
SOFTWARE.
".

(** [generate_readme(brief, checks)]. *)
Definition generate_readme (now : clock) (brief : string) (checks : list pyval) : string :=
  let checks_text :=
    match checks with
    | [] => "No specific checks."
    | _ => join nl (map (fun c => "- " +:+ py_str c) checks)
    end in
  "# Generated Application

## Summary
This application was automatically generated and deployed using an LLM-based code deployment system.

**Brief:** " +:+ brief +:+ "

## Features
This application implements the following requirements:
" +:+ checks_text +:+ "

## Setup
No setup required! This is a static web application.

## Usage
1. Visit the GitHub Pages URL for this repository
2. The application will load automatically in your browser
3. Follow any on-screen instructions

## Technology Stack
- **Frontend:** HTML5, CSS3, JavaScript
- **Styling:** Bootstrap 5
- **Deployment:** GitHub Pages

## Code Explanation
This application was generated based on the provided brief and requirements. The code is structured as follows:

- **index.html:** Main application file containing HTML structure, embedded styles, and JavaScript logic
- **README.md:** This file, containing project documentation
- **LICENSE:** MIT License file

The application uses modern web technologies and follows best practices for:
- Responsive design
- Cross-browser compatibility
- User experience
- Code organization and readability

## Deployment
This application is automatically deployed to GitHub Pages. Any commits to the main branch will trigger a redeployment.

## License
MIT License

Copyright (c) " +:+ year now +:+ qq "

Permission is hereby granted, free of charge, to any person obtaining a copy
of this software and associated documentation files (the ^Software^), to deal
in the Software without restriction, including without limitation the rights
to use, copy, modify, merge, publish, distribute, sublicense, and/or sell
copies of the Software, and to permit persons to whom the Software is
furnished to do so, subject to the following conditions:

The above copyright notice and this permission notice shall be included in all
copies or substantial portions of the Software.

THE SOFTWARE IS PROVIDED ^AS IS^, WITHOUT WARRANTY OF ANY KIND, EXPRESS OR
IMPLIED, INCLUDING BUT NOT LIMITED TO THE WARRANTIES OF MERCHANTABILITY,
FITNESS FOR A PARTICULAR PURPOSE AND NONINFRINGEMENT. IN NO EVENT SHALL THE
AUTHORS OR COPYRIGHT HOLDERS BE LIABLE FOR ANY CLAIM, DAMAGES OR OTHER
LIABILITY, WHETHER IN AN ACTION OF CONTRACT, TORT OR OTHERWISE, ARISING FROM,
OUT OF OR IN CONNECTION WITH THE SOFTWARE OR THE USE OR OTHER DEALINGS IN THE
SOFTWARE.

---

*Generated by LLM Code Deployment System on " +:+ stamp now +:+ " UTC*
".

(** [app_code.get(k)] on the artifact dict. *)
Fixpoint art_get (k : string) (a : CodeGenerator.artifact) : option string :=
  match a with
  | [] => None
  | (k', v) :: a' => if String.eqb k k' then Some v else art_get k a'
  end.

(** The files [push_files_to_repo] writes into the cloned working tree, in
    order, before [git add . / commit / push]. [index.html] is written only
    when present and non-empty; [README.md] is
    [app_code.get('README.md', generate_readme(brief, checks))]. *)
Definition written_files (now : clock) (app_code : CodeGenerator.artifact)
    (brief : string) (checks : list pyval) : list (string * string) :=
  let index :=
    match art_get "index.html" app_code with
    | Some h => if String.eqb h "" then [] else [("index.html", h)]
    | None => []
    end in
  let readme_content :=
    match art_get "README.md" app_code with
    | Some r => r
    | None => generate_readme now brief checks
    end in
  index ++ [("README.md", readme_content); ("LICENSE", get_mit_license now)].

(** [push_files_to_repo(repo, app_code, brief, checks)]: [git_push files]
    stands for the clone, the commit of [files] and the push, returning the
    commit SHA or raising [CalledProcessError]. *)
Definition push_files_to_repo (git_push : list (string * string) -> Result string)
    (now : clock) (app_code : CodeGenerator.artifact) (brief : string)
    (checks : list pyval) : Result string :=
  git_push (written_files now app_code brief checks).

(** [create_and_deploy_repo(task_name, app_code, brief, checks)]:
    [gh_create args] is [user.create_repo] called with [args], returning [repo.html_url];
    [enable_github_pages] never raises and always returns the Pages URL. *)
Definition create_and_deploy_repo (cfg : gh_config) (now : clock)
    (gh_create : create_repo_args -> Result string)
    (git_push : list (string * string) -> Result string)
    (task_name : string) (app_code : CodeGenerator.artifact) (brief : string)
    (checks : list pyval) : Result repo_info :=
  let* args := create_repo_request cfg now task_name brief in
  let* html_url := gh_create args in
  let* sha := push_files_to_repo git_push now app_code brief checks in
  Ok {| repo_url := html_url;
        commit_sha := sha;
        pages_url := "https://" +:+ GITHUB_USERNAME cfg +:+ ".github.io/" +:+ repo_name args +:+ "/" |}.

End GithubManager.

(* ------------------------------------------------------------------------ *)
(** * app.py: the [/api/deploy] endpoint *)

Module App.

Import Evaluator GithubManager.

(** [(jsonify(body), status)]; every value of the bodies is a string. *)
Record response := {
  http_status : Z;
  body : list (string * string)
}.

(** The request fields read after validation (lines 302-309). *)
Record request_fields := {
  rq_email : pyval;
  rq_task : pyval;
  rq_round : pyval;
  rq_nonce : pyval;
  rq_brief : pyval;
  rq_checks : pyval;
  rq_evaluation_url : pyval;
  rq_attachments : pyval
}.

(** The three pipeline stages as called from [deploy]:
    [generate_app_code(brief, checks, attachments)],
    [create_and_deploy_repo(task_name=task, app_code=..., brief=..., checks=...)]
    and [notify_evaluation_api(...)], which catches every exception itself. *)
Record components := {
  generate : pyval -> pyval -> pyval -> Result CodeGenerator.artifact;
  publish : pyval -> CodeGenerator.artifact -> pyval -> pyval -> Result repo_info;
  notify : request_fields -> repo_info -> notify_result
}.

(** [payload.get(k, default)]. *)
Definition get_default (d : list (string * pyval)) (k : string) (default : pyval) : pyval :=
  match dict_get k d with Some v => v | None => default end.

Definition extract_request (d : list (string * pyval)) : Result request_fields :=
  let p := VDict d in
  let* email := py_getitem p "email" in
  let* task := py_getitem p "task" in
  let* round_num := py_getitem p "round" in
  let* nonce := py_getitem p "nonce" in
  let* brief := py_getitem p "brief" in
  let checks := get_default d "checks" (VList []) in
  let* evaluation_url := py_getitem p "evaluation_url" in
  let attachments := get_default d "attachments" (VList []) in
  Ok {| rq_email := email; rq_task := task; rq_round := round_num; rq_nonce := nonce;
        rq_brief := brief; rq_checks := checks; rq_evaluation_url := evaluation_url;
        rq_attachments := attachments |}.

Definition exc_message (e : exc) : string :=
  match e with
  | TypeError => "TypeError"
  | AttributeError => "AttributeError"
  | KeyError k => "'" +:+ k +:+ "'"
  | ValueError m => m
  | IndexError => "list index out of range"
  | DecodeError => "decode error"
  | RuntimeFault m => m
  end.

(** The body of the [try] block of [deploy()]. *)
Definition deploy_body (STUDENT_SECRET : string) (comps : components) (payload : pyval)
    : Result response :=
  if negb (py_truthy payload) then
    Ok {| http_status := 400; body := [("error", "No JSON payload provided")] |}
  else
  match payload with
  | VDict d =>
      let* res := Validator.validate_request d in
      let '(is_valid, error_message) := res in
      if negb is_valid then Ok {| http_status := 400; body := [("error", error_message)] |} else
      if negb (Validator.verify_secret (get_default d "secret" (VStr "")) STUDENT_SECRET)
      then Ok {| http_status := 403; body := [("error", "Invalid secret")] |} else
      let* rq := extract_request d in
      let* app_code := generate comps (rq_brief rq) (rq_checks rq) (rq_attachments rq) in
      let* repo := publish comps (rq_task rq) app_code (rq_brief rq) (rq_checks rq) in
      match notify comps rq repo with
      | NotifyOk _ =>
          Ok {| http_status := 200;
                body := [("status", "success");
                         ("message", "Application deployed successfully");
                         ("repo_url", repo_url repo);
                         ("pages_url", pages_url repo);
                         ("commit_sha", commit_sha repo)] |}
      | NotifyFail err =>
          Ok {| http_status := 200;
                body := [("status", "partial_success");
                         ("message", "App deployed but evaluation notification failed");
                         ("repo_url", repo_url repo);
                         ("pages_url", pages_url repo);
                         ("error", err)] |}
      end
  | _ => Raise AttributeError (* payload.get(...) on a non-dict *)
  end.

(** [deploy()]: any exception becomes a 500 response. *)
Definition deploy (STUDENT_SECRET : string) (comps : components) (payload : pyval) : response :=
  match deploy_body STUDENT_SECRET comps payload with
  | Ok r => r
  | Raise e => {| http_status := 500;
                  body := [("error", "Internal server error"); ("message", exc_message e)] |}
  end.

End App.

(* ------------------------------------------------------------------------ *)
(** * code_generator.py: backends and [parse_llm_response] *)

Module LLMBackends.
Import CodeGenerator.

(** [s.find(sub, start)]: the first index at or after [start], or [-1]. *)
Definition py_find (sub s : string) (start : nat) : Z :=
  match String.index start sub s with
  | Some n => Z.of_nat n
  | None => (-1)%Z
  end.

(** [s[a:b]] with Python's index normalisation: a negative bound counts
    from the end, bounds are clamped to [0, len(s)], and an empty range
    gives [""]. *)
Definition py_slice (s : string) (a b : Z) : string :=
  let n := Z.of_nat (String.length s) in
  let norm x := if (x <? 0)%Z then Z.max 0 (x + n) else Z.min x n in
  let i := norm a in
  let j := norm b in
  if (j <=? i)%Z then "" else String.substring (Z.to_nat i) (Z.to_nat (j - i)) s.

(** [str.isspace()] on U+0000..U+00FF. *)
Definition is_space (c : ascii) : bool :=
  let n := nat_of_ascii c in
  (((9 <=? n) && (n <=? 13)) || ((28 <=? n) && (n <=? 32)) || (n =? 133) || (n =? 160))%nat.

Fixpoint lstrip_space (l : list ascii) : list ascii :=
  match l with
  | c :: l' => if is_space c then lstrip_space l' else l
  | [] => []
  end.

(** [s.strip()]. *)
Definition py_strip (s : string) : string :=
  string_of_list_ascii
    (rev (lstrip_space (rev (lstrip_space (list_ascii_of_string s))))).

Definition fence : string := "```".

(** [parse_llm_response(response_text)]. *)
Definition parse_llm_response (t : string) : artifact :=
  let html_code :=
    if str_contains "```html" t then
      let start := (py_find "```html" t 0 + 7)%Z in
      let stop := py_find fence t (Z.to_nat start) in
      py_strip (py_slice t start stop)
    else if str_contains "<!DOCTYPE html>" t then
      let start := py_find "<!DOCTYPE html>" t 0 in
      let stop := (py_find "</html>" t (Z.to_nat start) + 7)%Z in
      py_strip (py_slice t start stop)
    else "" in
  let readme_content :=
    if str_contains "README" t || str_contains "readme" t then
      if str_contains "```markdown" t || str_contains "```md" t then
        let marker := if str_contains "```markdown" t then "```markdown" else "```md" in
        let start := (py_find marker t 0 + Z.of_nat (String.length marker))%Z in
        let stop := py_find fence t (Z.to_nat start) in
        py_strip (py_slice t start stop)
      else ""
    else "" in
  [("index.html", html_code); ("README.md", readme_content)].

(** What the AI Pipeline call produces: a response (status, [response.text]
    and the extraction of [result['choices'][0]['message']['content']],
    which raises on a malformed body), or an exception of [requests.post]. *)
Inductive api_reply : Type :=
| AReply (status : Z) (text : string) (content : Result string)
| ANetError (msg : string).

(** [generate_with_aipipe(prompt)], the reply to the prompt given. *)
Definition generate_with_aipipe (reply : api_reply) : Result artifact :=
  match reply with
  | ANetError msg => Raise (RuntimeFault msg)
  | AReply status text content =>
      if negb (Z.eqb status 200) then
        Raise (RuntimeFault ("AI Pipeline API error: " +:+ pretty status +:+ " - " +:+ text))
      else let* response_text := content in Ok (parse_llm_response response_text)
  end.

(** [generate_with_anthropic] and [generate_with_openai] refer to the names
    [anthropic] and [OpenAI], which code_generator.py never imports: the
    first statement raises [NameError] (written [RuntimeFault] with its
    message), re-raised by the handler. *)
Definition generate_with_anthropic (prompt : string) : Result artifact :=
  Raise (RuntimeFault "name 'anthropic' is not defined").

Definition generate_with_openai (prompt : string) : Result artifact :=
  Raise (RuntimeFault "name 'OpenAI' is not defined").

(** The three backends, with [aipipe prompt] the AI Pipeline's reply. *)
Definition backends (aipipe : string -> api_reply) (p : provider) (prompt : string)
    : Result artifact :=
  match p with
  | AIPipe => generate_with_aipipe (aipipe prompt)
  | Anthropic => generate_with_anthropic prompt
  | OpenAI => generate_with_openai prompt
  end.

End LLMBackends.

(* ------------------------------------------------------------------------ *)
(** * github_manager.py: [enable_github_pages] *)

Module GithubPages.
Import GithubManager.



End GithubPages.

(* ======================================================================== *)
(** * Properties *)

(** ** Sample inputs *)

Definition now0 : GithubManager.clock :=
  {| GithubManager.year := "2026";
     GithubManager.stamp := "2026-10-16 12:00:00";
     GithubManager.compact_stamp := "20261016-120000" |}.

Definition gh0 : GithubManager.gh_config :=
  {| GithubManager.GITHUB_TOKEN := "tok"; GithubManager.GITHUB_USERNAME := "user" |}.

Definition no_keys : CodeGenerator.gen_config :=
  {| CodeGenerator.AIPIPE_API_KEY := "";
     CodeGenerator.ANTHROPIC_API_KEY := "";
     CodeGenerator.OPENAI_API_KEY := "" |}.

(** A well-formed request payload with the given email and checks. *)
Definition sample_payload (email : pyval) (checks : pyval) : list (string * pyval) :=
  [("email", email); ("secret", VStr "S"); ("task", VStr "Clock App!");
   ("round", VInt 1); ("nonce", VStr "n1"); ("brief", VStr "digital clock");
   ("checks", checks); ("evaluation_url", VStr "http://eval.test");
   ("attachments", VList [])].

Example sample_payload_valid :
  Validator.validate_request (sample_payload (VStr "a@b.com") (VList [VStr "has title"]))
  = Ok (true, "").
Proof. reflexivity. Qed.

Example sanitize_clock_app : GithubManager.sanitize_repo_name now0 "Clock App!" = "Clock-App".
Proof. reflexivity. Qed.

(* ------------------------------------------------------------------------ *)
(** ** Notification retries *)

Module EvaluatorFacts.
Import Evaluator.

(** The loop state after [k] persistent failures, unfolded one attempt at a
    time. *)
Lemma retry_step post attempt fuel status text json :
  post attempt = PResp status text json ->
  status <> 200%Z ->
  (attempt < MAX_RETRIES - 1)%nat ->
  notify_loop post attempt (S fuel) =
    (EPost attempt :: ESleep (nth attempt RETRY_DELAYS 0) :: (notify_loop post (S attempt) fuel).1,
     (notify_loop post (S attempt) fuel).2).
Proof.
  intros Hp Hs Ha. simpl. rewrite Hp.
  apply Z.eqb_neq in Hs. rewrite Hs. unfold retry_or_fail.
  apply Nat.ltb_lt in Ha. rewrite Ha. reflexivity.
Qed.

(** C1: when all five POSTs answer with a non-200 status, the dispatcher
    makes exactly five attempts, sleeps [RETRY_DELAYS[0..3]] = 1, 2, 4, 8
    seconds between consecutive attempts in that order, makes no attempt
    after the fifth, and fails with an error carrying the fifth status code
    and body. *)
Theorem notify_persistent_non200
    (post : nat -> post_outcome) (status : nat -> Z) (text : nat -> string)
    (json : nat -> string + string)
    (Hresp : forall i, (i < MAX_RETRIES)%nat -> post i = PResp (status i) (text i) (json i))
    (Hnon200 : forall i, (i < MAX_RETRIES)%nat -> status i <> 200%Z) :
  notify_evaluation_api post =
    ([EPost 0; ESleep 1; EPost 1; ESleep 2; EPost 2; ESleep 4; EPost 3; ESleep 8; EPost 4],
     NotifyFail ("Evaluation API returned status " +:+ pretty (status 4%nat) +:+ ": "
                 +:+ text 4%nat))
  /\ attempts (notify_evaluation_api post).1 = [0; 1; 2; 3; 4]
  /\ sleeps (notify_evaluation_api post).1 = take 4 RETRY_DELAYS
  /\ success (notify_evaluation_api post).2 = false.
Proof.
  assert (E : notify_evaluation_api post =
    ([EPost 0; ESleep 1; EPost 1; ESleep 2; EPost 2; ESleep 4; EPost 3; ESleep 8; EPost 4],
     NotifyFail ("Evaluation API returned status " +:+ pretty (status 4%nat) +:+ ": "
                 +:+ text 4%nat))).
  { unfold notify_evaluation_api, MAX_RETRIES.
    rewrite (retry_step post 0 4 (status 0%nat) (text 0%nat) (json 0%nat)) by first [apply Hresp; cbv; lia | apply Hnon200; cbv; lia | cbv; lia].
    rewrite (retry_step post 1 3 (status 1%nat) (text 1%nat) (json 1%nat)) by first [apply Hresp; cbv; lia | apply Hnon200; cbv; lia | cbv; lia].
    rewrite (retry_step post 2 2 (status 2%nat) (text 2%nat) (json 2%nat)) by first [apply Hresp; cbv; lia | apply Hnon200; cbv; lia | cbv; lia].
    rewrite (retry_step post 3 1 (status 3%nat) (text 3%nat) (json 3%nat)) by first [apply Hresp; cbv; lia | apply Hnon200; cbv; lia | cbv; lia].
    simpl. rewrite (Hresp 4%nat) by (cbv; lia).
    specialize (Hnon200 4%nat ltac:(cbv; lia)). apply Z.eqb_neq in Hnon200.
    rewrite Hnon200. reflexivity. }
  rewrite E. repeat split.
Qed.

Lemma notify_persistent_non200_witness :
  let post := fun _ : nat => PResp 500 "boom" (inr "no JSON") in
  (forall i, (i < MAX_RETRIES)%nat -> post i = PResp 500 "boom" (inr "no JSON")) /\
  (forall i, (i < MAX_RETRIES)%nat -> (500 <> 200)%Z) /\
  notify_evaluation_api post =
    ([EPost 0; ESleep 1; EPost 1; ESleep 2; EPost 2; ESleep 4; EPost 3; ESleep 8; EPost 4],
     NotifyFail ("Evaluation API returned status " +:+ pretty 500%Z +:+ ": " +:+ "boom")).
Proof.
  intros post. split; [intros; reflexivity|]. split; [intros; lia|].
  exact (proj1 (notify_persistent_non200 post (fun _ => 500%Z) (fun _ => "boom")
                  (fun _ => inr "no JSON") (fun i _ => eq_refl) (fun i _ => ltac:(lia)))).
Defined.

End EvaluatorFacts.

(* ------------------------------------------------------------------------ *)
(** ** Request validation and authentication *)

Module ValidatorFacts.
Import Validator.

(** C8: the secret check accepts exactly when a secret is configured (the
    expected string is non-empty) and the provided value is that very
    string; with no configured secret it rejects every provided value,
    including [""]. *)
Theorem verify_secret_exact (provided : pyval) (expected : string) :
  verify_secret provided expected = true <-> expected <> "" /\ provided = VStr expected.
Proof.
  unfold verify_secret. split.
  - destruct (String.eqb_spec expected ""); [discriminate|].
    destruct provided; try discriminate.
    intros H. apply String.eqb_eq in H. subst. auto.
  - intros [Hne ->]. apply String.eqb_neq in Hne. rewrite Hne.
    apply String.eqb_refl.
Qed.

Lemma missing_fields_spec (d : list (string * pyval)) (f : string) :
  In f (List.filter (fun f => negb (dict_has f d)) required_fields) <->
  In f required_fields /\ dict_has f d = false.
Proof.
  rewrite List.filter_In. split; intros [H1 H2]; split; auto.
  - now apply negb_true_iff in H2.
  - now rewrite H2.
Qed.

(** C9: when a dict payload lacks any required field, validation returns
    [(False, msg)] at once, [msg] listing every missing required field in
    the order of [required_fields], and nothing else is checked. *)
Theorem validate_lists_all_missing (d : list (string * pyval)) (f0 : string)
    (Hreq : In f0 required_fields) (Hmissing : dict_has f0 d = false) :
  validate_request d =
    Ok (false, "Missing required fields: "
               +:+ join ", " (List.filter (fun f => negb (dict_has f d)) required_fields))
  /\ (forall f, In f (List.filter (fun f => negb (dict_has f d)) required_fields) <->
                In f required_fields /\ dict_has f d = false).
Proof.
  split; [|apply missing_fields_spec].
  unfold validate_request.
  destruct (List.filter (fun f => negb (dict_has f d)) required_fields) eqn:E.
  - exfalso. assert (Hf : In f0 (List.filter (fun f => negb (dict_has f d)) required_fields))
      by (apply missing_fields_spec; auto).
    rewrite E in Hf. exact Hf.
  - reflexivity.
Qed.

Lemma validate_lists_all_missing_witness :
  In "secret" required_fields /\ dict_has "secret" [("email", VStr "a@b.com")] = false /\
  validate_request [("email", VStr "a@b.com")] =
    Ok (false, "Missing required fields: secret, task, round, nonce, brief, evaluation_url").
Proof.
  split; [simpl; tauto|]. split; [reflexivity|].
  exact (proj1 (validate_lists_all_missing [("email", VStr "a@b.com")] "secret"
                  ltac:(simpl; tauto) eq_refl)).
Defined.

End ValidatorFacts.

(* ------------------------------------------------------------------------ *)
(** ** The deploy endpoint *)

Module AppFacts.
Import Evaluator GithubManager App.

(** C5: a payload that is complete except that [email] is the integer 5.
    [validate_request] raises [TypeError] on ['@' in email] instead of
    returning a pair, and the endpoint turns it into a 500 response; every
    other required field is type-checked before use. *)
Theorem validate_email_wrong_type_500 :
  Validator.validate_request (sample_payload (VInt 5) (VList [])) = Raise TypeError
  /\ (forall STUDENT_SECRET comps,
        http_status (deploy STUDENT_SECRET comps (VDict (sample_payload (VInt 5) (VList []))))
        = 500%Z).
Proof. split; reflexivity. Qed.

Lemma validated_payload_nonempty (d : list (string * pyval)) :
  Validator.validate_request d = Ok (true, "") -> py_truthy (VDict d) = true.
Proof. destruct d; [discriminate|reflexivity]. Qed.

(** C7: once a validated, authenticated request has generated its
    artifact, a successful publish followed by a failed notification gives
    a 200 response with status [partial_success] that carries the
    repository URL and the Pages URL; a failed publish gives a 500
    response. *)
Theorem deploy_partial_success (STUDENT_SECRET : string) (comps : components)
    (d : list (string * pyval)) (rq : request_fields) (app_code : CodeGenerator.artifact)
    (Hvalid : Validator.validate_request d = Ok (true, ""))
    (Hsecret : Validator.verify_secret (get_default d "secret" (VStr "")) STUDENT_SECRET = true)
    (Hfields : extract_request d = Ok rq)
    (Hgen : generate comps (rq_brief rq) (rq_checks rq) (rq_attachments rq) = Ok app_code) :
  (forall repo err,
     publish comps (rq_task rq) app_code (rq_brief rq) (rq_checks rq) = Ok repo ->
     notify comps rq repo = NotifyFail err ->
     deploy STUDENT_SECRET comps (VDict d) =
       {| http_status := 200;
          body := [("status", "partial_success");
                   ("message", "App deployed but evaluation notification failed");
                   ("repo_url", repo_url repo);
                   ("pages_url", pages_url repo);
                   ("error", err)] |})
  /\ (forall e,
        publish comps (rq_task rq) app_code (rq_brief rq) (rq_checks rq) = Raise e ->
        http_status (deploy STUDENT_SECRET comps (VDict d)) = 500%Z).
Proof.
  pose proof (validated_payload_nonempty d Hvalid) as Htruthy.
  unfold deploy, deploy_body. rewrite Htruthy. simpl negb. cbv iota.
  rewrite Hvalid. simpl. rewrite Hsecret. simpl. rewrite Hfields. simpl.
  rewrite Hgen. simpl. split.
  - intros repo err Hpub Hnot. rewrite Hpub. simpl. rewrite Hnot. reflexivity.
  - intros e Hpub. rewrite Hpub. reflexivity.
Qed.

(** A concrete pipeline: generation and publishing succeed, the evaluation
    endpoint keeps answering 500. *)
Definition comps_notify_down : components :=
  {| generate := fun _ _ _ => Ok [("index.html", "<html>X</html>"); ("README.md", "# X")];
     publish := fun _ _ _ _ =>
       Ok {| repo_url := "https://github.com/user/Clock-App";
             commit_sha := "abc123";
             pages_url := "https://user.github.io/Clock-App/" |};
     notify := fun _ _ =>
       (notify_evaluation_api (fun _ => PResp 500 "down" (inr "no JSON"))).2 |}.

Lemma deploy_partial_success_witness :
  deploy "S" comps_notify_down (VDict (sample_payload (VStr "a@b.com") (VList [VStr "has title"]))) =
    {| http_status := 200;
       body := [("status", "partial_success");
                ("message", "App deployed but evaluation notification failed");
                ("repo_url", "https://github.com/user/Clock-App");
                ("pages_url", "https://user.github.io/Clock-App/");
                ("error", "Evaluation API returned status 500: down")] |}.
Proof.
  destruct (extract_request (sample_payload (VStr "a@b.com") (VList [VStr "has title"])))
    as [rq|e] eqn:Hx; [|discriminate].
  exact (proj1 (deploy_partial_success "S" comps_notify_down
                  (sample_payload (VStr "a@b.com") (VList [VStr "has title"])) rq
                  [("index.html", "<html>X</html>"); ("README.md", "# X")]
                  eq_refl eq_refl Hx eq_refl)
               _ "Evaluation API returned status 500: down" eq_refl eq_refl).
Defined.

End AppFacts.

(* ------------------------------------------------------------------------ *)
(** ** Repository publishing *)

Module GithubFacts.
Import GithubManager.

(** The name [99 * 'a' + '-b']. *)
Definition long_task_name : string :=
  string_of_list_ascii (repeat "a"%char 99) +:+ "-b".

(** C3: sanitizing strips hyphens before truncating to 100 characters, so a
    hyphen at position 100 survives as the last character; sanitizing the
    result again strips it, so the function is not idempotent there. *)
Theorem sanitize_not_idempotent (now : clock) :
  sanitize_repo_name now long_task_name = string_of_list_ascii (repeat "a"%char 99) +:+ "-"
  /\ sanitize_repo_name now (sanitize_repo_name now long_task_name)
     = string_of_list_ascii (repeat "a"%char 99)
  /\ sanitize_repo_name now (sanitize_repo_name now long_task_name)
     <> sanitize_repo_name now long_task_name.
Proof.
  assert (H1 : sanitize_repo_name now long_task_name
               = string_of_list_ascii (repeat "a"%char 99) +:+ "-") by reflexivity.
  assert (H2 : sanitize_repo_name now (string_of_list_ascii (repeat "a"%char 99) +:+ "-")
               = string_of_list_ascii (repeat "a"%char 99)) by reflexivity.
  rewrite H1, H2. repeat split.
  intros H. apply (f_equal String.length) in H. vm_compute in H. discriminate.
Qed.

(** The brief of the spec's example, ["a\nb\tc\r\n"]. *)
Definition control_brief : string :=
  "a" +:+ nl +:+ "b" +:+ String (ascii_of_nat 9) EmptyString +:+ "c"
  +:+ String (ascii_of_nat 13) EmptyString +:+ nl.

(** C4: [create_and_deploy_repo] passes the description
    ["Auto-generated application: " + brief[:100]] to the creation call
    with no sanitizing, so the newline, tab and carriage return of the brief
    reach the hosting provider. *)
Theorem description_keeps_control_chars :
  exists args,
    create_repo_request gh0 now0 "Clock App!" control_brief = Ok args
    /\ description args = "Auto-generated application: " +:+ control_brief
    /\ str_contains nl (description args) = true
    /\ str_contains (String (ascii_of_nat 9) EmptyString) (description args) = true
    /\ str_contains (String (ascii_of_nat 13) EmptyString) (description args) = true.
Proof. eexists. split; [reflexivity|]. repeat split; reflexivity. Qed.

(** [create_and_deploy_repo] sends exactly the arguments built by
    [create_repo_request]. *)
Lemma create_and_deploy_sends_request cfg now gh_create git_push task app_code brief checks args :
  create_repo_request cfg now task brief = Ok args ->
  create_and_deploy_repo cfg now gh_create git_push task app_code brief checks =
    rbind (gh_create args) (fun html_url =>
    rbind (push_files_to_repo git_push now app_code brief checks) (fun sha =>
    Ok {| repo_url := html_url; commit_sha := sha;
          pages_url := "https://" +:+ GITHUB_USERNAME cfg +:+ ".github.io/"
                       +:+ repo_name args +:+ "/" |})).
Proof. intros H. unfold create_and_deploy_repo. rewrite H. reflexivity. Qed.

(** An artifact whose README member is the empty string, as
    [parse_llm_response] returns when the model's answer has no markdown
    fence. *)
Definition artifact_empty_readme : CodeGenerator.artifact :=
  [("index.html", "<html>X</html>"); ("README.md", "")].

(** C2: [app_code.get('README.md', default)] uses the default only for a
    missing key, so an empty README member is written as an empty
    README.md. *)
Theorem empty_readme_written_empty (now : clock) (brief : string) (checks : list pyval) :
  written_files now artifact_empty_readme brief checks =
    [("index.html", "<html>X</html>"); ("README.md", ""); ("LICENSE", get_mit_license now)].
Proof. reflexivity. Qed.

End GithubFacts.

(* ------------------------------------------------------------------------ *)
(** ** Code generation *)

Module GeneratorFacts.
Import CodeGenerator.

Section WithDecoders.
Variable b64decode : string -> option (list Byte.byte).
Variable utf8_decode : list Byte.byte -> option string.

(** C6: [checks] is validated only as a list, so a payload with
    [checks = [5]] is accepted; the generator then falls back to the
    template when no backend is configured, or when the configured backend
    raises, and the template's ['- ' + check] raises [TypeError], which
    leaves [generate_app_code]. *)
Theorem template_fallback_raises_on_int_check
    (backend : provider -> string -> Result artifact) :
  Validator.validate_request (sample_payload (VStr "a@b.com") (VList [VInt 5])) = Ok (true, "")
  /\ generate_app_code b64decode utf8_decode no_keys backend "digital clock" [VInt 5] []
     = Raise TypeError
  /\ generate_app_code b64decode utf8_decode
       {| AIPIPE_API_KEY := "key"; ANTHROPIC_API_KEY := ""; OPENAI_API_KEY := "" |}
       (fun _ _ => Raise (RuntimeFault "AI Pipeline API error: 500"))
       "digital clock" [VInt 5] []
     = Raise TypeError.
Proof. repeat split. Qed.

(** The data URI [u] is malformed or its payload does not decode: no
    comma, no MIME part, base64 decoding fails, or a text payload is not
    UTF-8. *)
Definition data_payload_fails (u : string) : bool :=
  match split_once ","%char u with
  | None => true
  | Some (header, encoded) =>
      match py_index1 (Validator.split_on ":"%char header) with
      | Raise _ => true
      | Ok after_colon =>
          match b64decode encoded with
          | None => true
          | Some raw =>
              is_text_mime (List.hd "" (Validator.split_on ";"%char after_colon))
              && match utf8_decode raw with Some _ => false | None => true end
          end
      end
  end.

(** The attachment's [url] does not start with ["data:"] (a non-string
    url starts with nothing), or it is a data URI that fails to decode. *)
Definition unsupported_or_undecodable (url : pyval) : bool :=
  match url with
  | VStr u => if startswith "data:" u then data_payload_fails u else true
  | _ => true
  end.

Lemma rbind_ok_r {A : Type} (m : Result A) : rbind m (fun x => Ok x) = m.
Proof. destruct m; reflexivity. Qed.

Lemma decode_all_drop (a : pyval) (pre post : list pyval) :
  decode_attachment b64decode utf8_decode a = Ok None ->
  decode_all b64decode utf8_decode (pre ++ a :: post)
  = decode_all b64decode utf8_decode (pre ++ post).
Proof.
  intros Ha. induction pre as [|x pre IH]; simpl.
  - rewrite Ha. simpl. apply rbind_ok_r.
  - rewrite IH. reflexivity.
Qed.

(** C10: an attachment dict whose [url] is not a data URI, or is a data URI
    that fails to decode, is decoded to [None] without raising, and
    [generate_app_code] then behaves exactly as if the attachment had not
    been sent. *)
Theorem attachment_unsupported_dropped (d : list (string * pyval)) (url : pyval)
    (Hurl : dict_get "url" d = Some url)
    (Hbad : unsupported_or_undecodable url = true) :
  decode_attachment b64decode utf8_decode (VDict d) = Ok None
  /\ (forall cfg backend brief checks pre post,
        generate_app_code b64decode utf8_decode cfg backend brief checks (pre ++ VDict d :: post)
        = generate_app_code b64decode utf8_decode cfg backend brief checks (pre ++ post)).
Proof.
  assert (Hdec : decode_attachment b64decode utf8_decode (VDict d) = Ok None).
  { unfold decode_attachment, py_try, decode_body. cbn [py_getitem].
    rewrite Hurl. cbn [rbind].
    destruct url as [| | |u| |]; try reflexivity.
    simpl in Hbad. destruct (startswith "data:" u); [|reflexivity].
    unfold data_payload_fails in Hbad.
    destruct (split_once ","%char u) as [[header encoded]|]; [|reflexivity].
    destruct (py_index1 (Validator.split_on ":"%char header)) as [after|e]; cbn [rbind];
      [|reflexivity].
    destruct (b64decode encoded) as [raw|]; [|reflexivity].
    apply andb_true_iff in Hbad as [Htext Hutf].
    rewrite Htext. destruct (utf8_decode raw); [discriminate|reflexivity]. }
  split; [exact Hdec|].
  intros cfg backend brief checks pre post. unfold generate_app_code.
  rewrite (decode_all_drop _ pre post Hdec). reflexivity.
Qed.

End WithDecoders.

(** A decoder that accepts nothing, for concrete runs. *)
Definition no_b64 (_ : string) : option (list Byte.byte) := None.
Definition no_utf8 (_ : list Byte.byte) : option string := None.

Lemma attachment_unsupported_dropped_witness :
  decode_attachment no_b64 no_utf8 (VDict [("name", VStr "logo.png"); ("url", VStr "https://x.test/logo.png")])
  = Ok None.
Proof.
  exact (proj1 (attachment_unsupported_dropped no_b64 no_utf8
                  [("name", VStr "logo.png"); ("url", VStr "https://x.test/logo.png")]
                  (VStr "https://x.test/logo.png") eq_refl eq_refl)).
Defined.

End GeneratorFacts.

(* ======================================================================== *)
(** * Further properties of the code *)

(** ** The notification loop *)

Module EvaluatorMore.
Import Evaluator.

(** An attempt that ends the loop with success: status 200 and an empty or
    JSON-parseable body. *)
Definition attempt_ok (o : post_outcome) : bool :=
  match o with
  | PResp status text json =>
      Z.eqb status 200 && (String.eqb text "" || match json with inl _ => true | inr _ => false end)
  | _ => false
  end.

(** [n] attempts from [a], with the scheduled sleep between consecutive
    ones. *)
Fixpoint trace_from (a n : nat) : list event :=
  match n with
  | O => []
  | S O => [EPost a]
  | S n' => EPost a :: ESleep (nth a RETRY_DELAYS 0) :: trace_from (S a) n'
  end.

Lemma loop_step_ok post a f :
  attempt_ok (post a) = true ->
  exists r, notify_loop post a (S f) = ([EPost a], NotifyOk r).
Proof.
  intros H. cbn [notify_loop]. unfold attempt_ok in H.
  destruct (post a) as [s t j| | |]; try discriminate.
  apply andb_true_iff in H as [Hs Ht]. rewrite Hs.
  destruct (String.eqb t ""); [eauto|].
  destruct j; [eauto|discriminate].
Qed.

Lemma loop_step_fail post a f :
  attempt_ok (post a) = false ->
  exists msg, msg <> "Failed after maximum retries" /\
    notify_loop post a (S f) =
      if (a <? MAX_RETRIES - 1)%nat
      then (EPost a :: ESleep (nth a RETRY_DELAYS 0) :: (notify_loop post (S a) f).1,
            (notify_loop post (S a) f).2)
      else ([EPost a], NotifyFail msg).
Proof.
  intros H. cbn [notify_loop]. unfold attempt_ok in H.
  destruct (post a) as [s t j| | | m].
  - destruct (Z.eqb s 200) eqn:Hs; simpl in H.
    + destruct (String.eqb t ""); [discriminate|].
      destruct j as [|m]; [discriminate|].
      exists ("Unexpected error: " +:+ m). split; [discriminate|].
      unfold retry_or_fail. destruct (a <? MAX_RETRIES - 1)%nat; reflexivity.
    + eexists. split; [|unfold retry_or_fail; destruct (a <? MAX_RETRIES - 1)%nat; reflexivity].
      discriminate.
  - exists "Request timeout after multiple retries". split; [discriminate|].
    unfold retry_or_fail. destruct (a <? MAX_RETRIES - 1)%nat; reflexivity.
  - eexists. split; [|unfold retry_or_fail; destruct (a <? MAX_RETRIES - 1)%nat; reflexivity].
    discriminate.
  - eexists. split; [|unfold retry_or_fail; destruct (a <? MAX_RETRIES - 1)%nat; reflexivity].
    discriminate.
Qed.

Lemma notify_loop_shape post : forall fuel a,
  (1 <= fuel)%nat -> (a + fuel = MAX_RETRIES)%nat ->
  exists n, (1 <= n <= fuel)%nat
    /\ (notify_loop post a fuel).1 = trace_from a n
    /\ (forall i, (a <= i < a + n - 1)%nat -> attempt_ok (post i) = false)
    /\ success (notify_loop post a fuel).2 = attempt_ok (post (a + n - 1)%nat)
    /\ ((n < fuel)%nat -> attempt_ok (post (a + n - 1)%nat) = true)
    /\ (notify_loop post a fuel).2 <> NotifyFail "Failed after maximum retries".
Proof.
  induction fuel as [|f IH]; intros a Hf Ha; [lia|].
  destruct (attempt_ok (post a)) eqn:Hok.
  - destruct (loop_step_ok post a f Hok) as [r E]. rewrite E.
    exists 1%nat. simpl. replace (a + 1 - 1)%nat with a by lia.
    repeat split; intros; try lia; auto; try discriminate.
  - destruct (loop_step_fail post a f Hok) as [msg [Hmsg E]]. rewrite E.
    destruct (a <? MAX_RETRIES - 1)%nat eqn:Hlt.
    + apply Nat.ltb_lt in Hlt. unfold MAX_RETRIES in *.
      destruct (IH (S a) ltac:(lia) ltac:(lia)) as (n & Hn & Htr & Hfail & Hsucc & Hstop & Hnot).
      exists (S n). cbn [fst snd]. split; [lia|]. split.
      { rewrite Htr. destruct n; [lia|reflexivity]. }
      split.
      { intros i Hi. destruct (Nat.eq_dec i a) as [->|]; [exact Hok|]. apply Hfail. lia. }
      replace (a + S n - 1)%nat with (S a + n - 1)%nat by lia.
      split; [exact Hsucc|]. split; [intros; apply Hstop; lia|exact Hnot].
    + apply Nat.ltb_ge in Hlt. unfold MAX_RETRIES in *.
      exists 1%nat. simpl. replace (a + 1 - 1)%nat with a by lia.
      repeat split; intros; try lia; auto; try congruence.
Qed.

Lemma sleeps_trace_from n : (1 <= n <= 5)%nat ->
  sleeps (trace_from 0 n) = take (n - 1) RETRY_DELAYS.
Proof.
  intros Hn. destruct n as [|[|[|[|[|[|n]]]]]]; try lia; reflexivity.
Qed.

(** Every run of the dispatcher makes between 1 and 5 POSTs, numbered from
    0, with the scheduled sleeps [RETRY_DELAYS[0..n-2]] between them; it
    stops early exactly at the first attempt that answers 200 with an empty
    or JSON body, reports success exactly when the last attempt was such an
    answer, and never returns the unreachable "Failed after maximum
    retries". *)
Theorem notify_run_shape (post : nat -> post_outcome) :
  exists n, (1 <= n <= MAX_RETRIES)%nat
    /\ (notify_evaluation_api post).1 = trace_from 0 n
    /\ attempts (notify_evaluation_api post).1 = seq 0 n
    /\ sleeps (notify_evaluation_api post).1 = take (n - 1) RETRY_DELAYS
    /\ (forall i, (i < n - 1)%nat -> attempt_ok (post i) = false)
    /\ success (notify_evaluation_api post).2 = attempt_ok (post (n - 1)%nat)
    /\ ((n < MAX_RETRIES)%nat -> attempt_ok (post (n - 1)%nat) = true)
    /\ (notify_evaluation_api post).2 <> NotifyFail "Failed after maximum retries".
Proof.
  destruct (notify_loop_shape post MAX_RETRIES 0 ltac:(cbv; lia) eq_refl)
    as (n & Hn & Htr & Hfail & Hsucc & Hstop & Hnot).
  unfold notify_evaluation_api. exists n. unfold MAX_RETRIES in *.
  split; [lia|]. split; [exact Htr|]. split.
  { rewrite Htr. destruct n as [|[|[|[|[|[|n]]]]]]; try lia; reflexivity. }
  split; [rewrite Htr; apply sleeps_trace_from; lia|].
  split; [intros i Hi; apply Hfail; lia|]. split; [exact Hsucc|].
  split; [exact Hstop|exact Hnot].
Qed.



End EvaluatorMore.

(** ** validator.py: the accepted payloads *)

Module ValidatorMore.
Import Validator.

(** An attachment passes the per-attachment loop. *)
Definition attachment_ok (a : pyval) : bool :=
  match a with VDict ad => dict_has "name" ad && dict_has "url" ad | _ => false end.

(** The conditions [validate_request] checks, read field by field. *)
Definition request_well_formed (d : list (string * pyval)) : bool :=
  forallb (fun f => dict_has f d) required_fields
  && match dict_get "email" d with
     | Some (VStr e) => str_contains "@" e && str_contains "." (List.last (split_on "@"%char e) "")
     | _ => false end
  && match dict_get "round" d with Some r => is_positive_int r | None => false end
  && match dict_get "task" d with Some t => is_nonempty_str t | None => false end
  && match dict_get "nonce" d with Some t => is_nonempty_str t | None => false end
  && match dict_get "brief" d with Some t => is_nonempty_str t | None => false end
  && match dict_get "evaluation_url" d with Some (VStr u) => startswith "http" u | _ => false end
  && match dict_get "checks" d with Some c => is_list c | None => true end
  && match dict_get "attachments" d with
     | Some (VList l) => forallb attachment_ok l
     | Some _ => false
     | None => true end.


Lemma check_attachments_none idx l :
  check_attachments idx l = None <-> forallb attachment_ok l = true.
Proof.
  revert idx. induction l as [|a l IH]; intros idx; simpl; [tauto|].
  destruct a; simpl; try (split; discriminate).
  destruct (dict_has "name" d && dict_has "url" d); simpl; [apply IH|split; discriminate].
Qed.

Lemma missing_empty d : List.filter (fun f => negb (dict_has f d)) required_fields = [] <->
  forallb (fun f => dict_has f d) required_fields = true.
Proof.
  unfold required_fields. simpl.
  repeat match goal with |- context [dict_has ?f d] => destruct (dict_has f d) end;
  simpl; split; congruence.
Qed.

Lemma missing_nonempty d f l :
  List.filter (fun f => negb (dict_has f d)) required_fields = f :: l ->
  forallb (fun f => dict_has f d) required_fields = false.
Proof.
  intros Hm. destruct (forallb _ _) eqn:E; [|reflexivity].
  apply missing_empty in E. congruence.
Qed.

Lemma check_attachments_some_false l m :
  check_attachments 0 l = Some m -> forallb attachment_ok l = false.
Proof.
  intros H. destruct (forallb attachment_ok l) eqn:E; [|reflexivity].
  apply (proj2 (check_attachments_none 0 l)) in E. congruence.
Qed.

Ltac dest_atom x :=
  lazymatch x with
  | negb ?y => dest_atom y
  | andb ?a _ => dest_atom a
  | context [match ?y with _ => _ end] => dest_atom y
  | _ => (is_var x; destruct x) || (destruct x eqn:?)
  end.

(** Case analysis on the left-hand side of a goal [L = R <-> P] until [L]
    is computed. *)
Ltac split_lhs :=
  repeat (cbv [rbind negb andb py_contains email_domain] in *;
    first
    [ match goal with
      | H : check_attachments 0 ?l = None |- _ =>
          rewrite (proj1 (check_attachments_none 0 l) H); clear H
      | H : check_attachments 0 ?l = Some _ |- _ =>
          rewrite (check_attachments_some_false l _ H); clear H
      end
    | match goal with
      | |- ?L = _ <-> _ =>
          match L with
          | context [match ?x with _ => _ end] => dest_atom x
          end
      end ];
    try (simpl; split; [intros Hc; discriminate Hc | intros [Hc _]; discriminate Hc])).

Lemma validate_true_iff d msg :
  validate_request d = Ok (true, msg) <-> request_well_formed d = true /\ msg = "".
Proof.
  unfold validate_request, request_well_formed.
  destruct (List.filter (fun f => negb (dict_has f d)) required_fields) eqn:Hm.
  2:{ rewrite (missing_nonempty _ _ _ Hm). simpl.
      split; [intros Hc; discriminate Hc|intros [Hc _]; discriminate Hc]. }
  apply missing_empty in Hm. rewrite Hm. simpl.
  unfold py_getitem.
  split_lhs.
  all: simpl; split; [intros Hc; inversion Hc; auto | intros [_ ->]; reflexivity].
Qed.

(** [validate_request] accepts a dict payload exactly when every required
    field is present, the email is a string with an ['@'] whose last
    ['@']-separated part has a ['.'], the round is a positive int (or
    [True]), task, nonce and brief are non-empty strings, the evaluation
    URL is a string starting with ["http"], [checks] is absent or a list,
    and [attachments] is absent or a list of dicts with [name] and [url];
    an accepted payload always comes with the message [""]. *)
Theorem validate_accepts_exactly d msg :
  validate_request d = Ok (true, msg) <-> request_well_formed d = true /\ msg = "".
Proof. apply validate_true_iff. Qed.


(** The attachment loop reports the first attachment that is not a dict
    with [name] and [url], by its index in the list. *)
Theorem check_attachments_first_bad (pre post : list pyval) (a : pyval)
    (Hpre : forallb attachment_ok pre = true) (Ha : attachment_ok a = false) :
  check_attachments 0 (pre ++ a :: post)
  = Some ("Attachment " +:+ pretty (length pre) +:+
          match a with
          | VDict _ => " must have 'name' and 'url' fields"
          | _ => " must be a dictionary"
          end).
Proof.
  assert (H : forall idx, check_attachments idx (pre ++ a :: post)
    = Some ("Attachment " +:+ pretty (idx + length pre)%nat +:+
          match a with
          | VDict _ => " must have 'name' and 'url' fields"
          | _ => " must be a dictionary"
          end)).
  { induction pre as [|x pre IH]; intros idx; simpl.
    - rewrite Nat.add_0_r. destruct a; try reflexivity. simpl in Ha. rewrite Ha. reflexivity.
    - simpl in Hpre. destruct x; try discriminate. simpl in Hpre.
      apply andb_true_iff in Hpre as [Hx Hpre]. rewrite Hx.
      rewrite IH by exact Hpre. rewrite Nat.add_succ_r. reflexivity. }
  exact (H 0%nat).
Qed.

Lemma check_attachments_first_bad_witness :
  check_attachments 0 [VDict [("name", VStr "a"); ("url", VStr "u")]; VStr "b"]
  = Some "Attachment 1 must be a dictionary".
Proof.
  exact (check_attachments_first_bad [VDict [("name", VStr "a"); ("url", VStr "u")]] []
           (VStr "b") eq_refl eq_refl).
Defined.

End ValidatorMore.

(** ** app.py: the responses of [deploy] *)

Module AppMore.
Import Evaluator GithubManager App Validator ValidatorMore.

Lemma wf_has_all d : request_well_formed d = true ->
  forallb (fun f => dict_has f d) required_fields = true.
Proof.
  unfold request_well_formed. intros H.
  repeat match type of H with (_ && _) = true => apply andb_true_iff in H as [H _] end.
  exact H.
Qed.

Lemma wf_nonempty d : request_well_formed d = true -> d <> [].
Proof. intros H ->. discriminate H. Qed.

Lemma truthy_dict d : py_truthy (VDict d) = negb (length d =? 0)%nat.
Proof. reflexivity. Qed.

Lemma getitem_has d k : dict_has k d = true -> py_getitem (VDict d) k = Ok (get_default d k VNone).
Proof. unfold dict_has, py_getitem, get_default. destruct (dict_get k d); congruence. Qed.

(** With every required field present, the extraction of the fields after
    validation succeeds and reads them with [payload[...]] / [payload.get]. *)
Lemma extract_request_ok d :
  forallb (fun f => dict_has f d) required_fields = true ->
  extract_request d =
  Ok {| rq_email := get_default d "email" VNone; rq_task := get_default d "task" VNone;
        rq_round := get_default d "round" VNone; rq_nonce := get_default d "nonce" VNone;
        rq_brief := get_default d "brief" VNone;
        rq_checks := get_default d "checks" (VList []);
        rq_evaluation_url := get_default d "evaluation_url" VNone;
        rq_attachments := get_default d "attachments" (VList []) |}.
Proof.
  unfold required_fields. simpl. intros H.
  repeat (apply andb_true_iff in H as [? H]).
  unfold extract_request.
  repeat (rewrite getitem_has by assumption; cbn [rbind]).
  reflexivity.
Qed.


Lemma filter_missing_cons d f :
  In f required_fields -> dict_has f d = false ->
  exists g l, List.filter (fun f => negb (dict_has f d)) required_fields = g :: l.
Proof.
  intros Hf Hm. destruct (List.filter _ _) as [|g l] eqn:E; [|eauto].
  assert (Hin : In f (List.filter (fun f => negb (dict_has f d)) required_fields)).
  { apply List.filter_In. rewrite Hm. auto. }
  rewrite E in Hin. destruct Hin.
Qed.

(** [deploy] answers 400 with the list of missing fields to a non-empty
    dict payload that lacks a required field, whatever the configured
    secret and whatever the pipeline stages would do. *)
Theorem deploy_missing_field_400 (STUDENT_SECRET : string) (comps : components)
    (d : list (string * pyval)) (f : string)
    (Hne : d <> []) (Hf : In f required_fields) (Hmiss : dict_has f d = false) :
  deploy STUDENT_SECRET comps (VDict d) =
  {| http_status := 400;
     body := [("error", "Missing required fields: " +:+
                 join ", " (List.filter (fun f => negb (dict_has f d)) required_fields))] |}.
Proof.
  destruct (filter_missing_cons d f Hf Hmiss) as (g & l & E).
  unfold deploy, deploy_body. rewrite truthy_dict.
  destruct d as [|kv d']; [contradiction|]. cbn [length Nat.eqb negb].
  unfold validate_request. rewrite E. reflexivity.
Qed.

(** With no [STUDENT_SECRET] configured ([""]), [deploy] never answers 200
    and never runs the pipeline: its response is the same whatever the
    generation, publication and notification stages do. *)
Theorem deploy_unconfigured_secret (comps comps' : components) (p : pyval) :
  http_status (deploy "" comps p) <> 200%Z /\ deploy "" comps p = deploy "" comps' p.
Proof.
  unfold deploy, deploy_body.
  destruct (py_truthy p); cbn [negb]; [|split; [discriminate|reflexivity]].
  destruct p; try (split; [discriminate|reflexivity]).
  destruct (validate_request d) as [[[|] m]|e]; cbn [rbind negb];
    try (split; [discriminate|reflexivity]).
Qed.

(** [deploy] answers 200 to a dict payload exactly when the payload passes
    validation, the secret matches, and code generation and publication
    both return; the notification outcome only changes the body (success
    or partial success). *)
Theorem deploy_200_iff (STUDENT_SECRET : string) (comps : components)
    (d : list (string * pyval)) :
  http_status (deploy STUDENT_SECRET comps (VDict d)) = 200%Z <->
  request_well_formed d = true
  /\ verify_secret (get_default d "secret" (VStr "")) STUDENT_SECRET = true
  /\ exists app repo,
       generate comps (get_default d "brief" VNone) (get_default d "checks" (VList []))
         (get_default d "attachments" (VList [])) = Ok app
       /\ publish comps (get_default d "task" VNone) app (get_default d "brief" VNone)
            (get_default d "checks" (VList [])) = Ok repo.
Proof.
  unfold deploy, deploy_body. rewrite truthy_dict. split.
  - intros H200.
    destruct (length d =? 0)%nat eqn:Hl; cbn [negb] in H200; [discriminate|].
    destruct (validate_request d) as [[b m]|e] eqn:Hv; cbn [rbind] in H200; [|discriminate].
    destruct b; cbn [negb] in H200; [|discriminate].
    apply validate_true_iff in Hv as [Hwf _].
    destruct (verify_secret _ _) eqn:Hs; cbn [negb] in H200; [|discriminate].
    rewrite (extract_request_ok d (wf_has_all d Hwf)) in H200. cbn [rbind] in H200.
    cbn [rq_brief rq_checks rq_attachments rq_task] in H200.
    destruct (generate comps _ _ _) as [app|e] eqn:Hg; cbn [rbind] in H200; [|discriminate].
    destruct (publish comps _ _ _ _) as [repo|e] eqn:Hp; cbn [rbind] in H200; [|discriminate].
    eauto 7.
  - intros (Hwf & Hs & app & repo & Hg & Hp).
    assert (Hl : (length d =? 0)%nat = false)
      by (destruct d; [exfalso; exact (wf_nonempty [] Hwf eq_refl)|reflexivity]).
    rewrite Hl. cbn [negb].
    rewrite (proj2 (validate_true_iff d "") (conj Hwf eq_refl)). cbn [rbind negb].
    rewrite Hs. cbn [negb].
    rewrite (extract_request_ok d (wf_has_all d Hwf)). cbn [rbind].
    cbn [rq_brief rq_checks rq_attachments rq_task].
    rewrite Hg. cbn [rbind]. rewrite Hp. cbn [rbind].
    destruct (notify comps _ _); reflexivity.
Qed.



(** Sample pipeline whose generator fails. *)
Definition comps_generator_down : components :=
  {| generate := fun _ _ _ => Raise (RuntimeFault "All LLM providers failed");
     publish := fun _ _ _ _ =>
       Ok {| repo_url := "https://github.com/user/x"; commit_sha := "abc";
             pages_url := "https://user.github.io/x/" |};
     notify := fun _ _ => NotifyOk "ok" |}.

Definition payload_no_secret : list (string * pyval) :=
  [("email", VStr "a@b.com"); ("task", VStr "t")].

Lemma deploy_missing_field_400_witness :
  http_status (deploy "S" comps_generator_down (VDict payload_no_secret)) = 400%Z.
Proof.
  rewrite (deploy_missing_field_400 "S" comps_generator_down payload_no_secret "secret").
  - reflexivity.
  - discriminate.
  - simpl; tauto.
  - reflexivity.
Defined.



End AppMore.

(** ** github_manager.py: repository names and creation *)

Module GithubMore.
Import GithubManager.
Local Open Scope list_scope.

Definition hyphen_only (l : list ascii) : bool := forallb (fun c => Ascii.eqb c hyphen) l.

Lemma lstrip_hyphen_suffix l : exists p, l = p ++ lstrip_hyphen l.
Proof.
  induction l as [|c l IH]; simpl; [exists []; reflexivity|].
  destruct (Ascii.eqb c hyphen).
  - destruct IH as [p Hp]. exists (c :: p). simpl. congruence.
  - exists []. reflexivity.
Qed.

Lemma lstrip_hyphen_nil l : lstrip_hyphen l = [] <-> hyphen_only l = true.
Proof.
  induction l as [|c l IH]; simpl; [tauto|].
  destruct (Ascii.eqb c hyphen); simpl; [exact IH|split; discriminate].
Qed.

Lemma lstrip_hyphen_head l c l' : lstrip_hyphen l = c :: l' -> Ascii.eqb c hyphen = false.
Proof.
  induction l as [|x l IH]; simpl; [discriminate|].
  destruct (Ascii.eqb x hyphen) eqn:E; [exact IH|]. intros H. inversion H; subst. exact E.
Qed.

Lemma hyphen_only_app l r : hyphen_only (l ++ r) = hyphen_only l && hyphen_only r.
Proof. unfold hyphen_only. apply forallb_app. Qed.

Lemma hyphen_only_rev l : hyphen_only (rev l) = hyphen_only l.
Proof.
  induction l as [|c l IH]; simpl; [reflexivity|].
  rewrite hyphen_only_app, IH. simpl. rewrite andb_true_r, andb_comm. reflexivity.
Qed.

Lemma lstrip_hyphen_app l r :
  lstrip_hyphen (l ++ r) = if hyphen_only l then lstrip_hyphen r else lstrip_hyphen l ++ r.
Proof.
  induction l as [|c l IH]; simpl; [reflexivity|].
  destruct (Ascii.eqb c hyphen); simpl; [exact IH|reflexivity].
Qed.

(** [strip('-')] keeps a leading non-hyphen character. *)
Lemma strip_hyphen_head l c l' :
  lstrip_hyphen l = c :: l' -> exists x, strip_hyphen l = c :: x.
Proof.
  intros H. unfold strip_hyphen. rewrite H. simpl.
  rewrite lstrip_hyphen_app. simpl. rewrite (lstrip_hyphen_head _ _ _ H).
  destruct (hyphen_only (rev l')).
  - exists []. reflexivity.
  - rewrite rev_app_distr. simpl. eexists; reflexivity.
Qed.

Lemma strip_hyphen_incl l : incl (strip_hyphen l) l.
Proof.
  unfold strip_hyphen. intros c Hc. apply in_rev in Hc.
  destruct (lstrip_hyphen_suffix (rev (lstrip_hyphen l))) as [p Hp].
  assert (In c (rev (lstrip_hyphen l))) by (rewrite Hp; apply in_or_app; auto).
  apply in_rev in H.
  destruct (lstrip_hyphen_suffix l) as [q Hq]. rewrite Hq. apply in_or_app; auto.
Qed.

Lemma length_list_ascii_of_string s : length (list_ascii_of_string s) = String.length s.
Proof. induction s; simpl; congruence. Qed.

Lemma kept_alnum l :
  existsb is_alnum (List.filter (fun c => is_alnum c || Ascii.eqb c hyphen)
     (map (fun c => if Ascii.eqb c " "%char || Ascii.eqb c "_"%char then hyphen else c) l))
  = existsb is_alnum l.
Proof.
  induction l as [|c l IH]; [reflexivity|]. cbn [map].
  destruct (Ascii.eqb c " "%char) eqn:E1.
  { apply Ascii.eqb_eq in E1; subst. cbn. exact IH. }
  destruct (Ascii.eqb c "_"%char) eqn:E2.
  { apply Ascii.eqb_eq in E2; subst. cbn. exact IH. }
  cbn [orb List.filter existsb]. destruct (is_alnum c) eqn:E3; cbn [orb existsb].
  - rewrite E3. reflexivity.
  - destruct (Ascii.eqb c hyphen); cbn [existsb]; rewrite ?E3; exact IH.
Qed.

Definition repo_char (c : ascii) : bool := is_alnum c || Ascii.eqb c hyphen.

(** [sanitize_repo_name] falls back to ["task-" + timestamp] exactly when
    the task name has no alphanumeric character; otherwise the name it
    returns has 1 to 100 characters, all alphanumeric or ['-'], and does
    not start with ['-']. *)
Theorem sanitize_repo_name_shape (now : clock) (task_name : string) :
  (existsb is_alnum (list_ascii_of_string task_name) = false ->
     sanitize_repo_name now task_name = "task-" +:+ compact_stamp now)
  /\ (existsb is_alnum (list_ascii_of_string task_name) = true ->
     let r := list_ascii_of_string (sanitize_repo_name now task_name) in
     (1 <= length r <= 100)%nat /\ forallb repo_char r = true
     /\ hd_error r <> Some hyphen).
Proof.
  unfold sanitize_repo_name.
  set (chars := list_ascii_of_string task_name).
  set (f := fun c : ascii => if Ascii.eqb c " "%char || Ascii.eqb c "_"%char then hyphen else c).
  set (kept := List.filter (fun c => is_alnum c || Ascii.eqb c hyphen) (map f chars)).
  assert (Hkept : forall c, In c kept -> repo_char c = true).
  { intros c Hc. apply List.filter_In in Hc. apply Hc. }
  assert (Halnum : existsb is_alnum kept = existsb is_alnum chars) by apply kept_alnum.
  split.
  - intros Hno.
    assert (Hall : hyphen_only kept = true).
    { unfold hyphen_only. apply forallb_forall. intros c Hc.
      pose proof (Hkept c Hc) as Hr. unfold repo_char in Hr.
      destruct (is_alnum c) eqn:Ea; [|exact Hr].
      exfalso. assert (existsb is_alnum kept = true) by (apply existsb_exists; eauto).
      congruence. }
    unfold strip_hyphen. rewrite (proj2 (lstrip_hyphen_nil kept) Hall). reflexivity.
  - intros Hyes. cbv zeta.
    destruct (lstrip_hyphen kept) as [|c l'] eqn:Hl.
    { exfalso. apply lstrip_hyphen_nil in Hl.
      rewrite <- Halnum in Hyes. apply existsb_exists in Hyes as [c [Hc Ha]].
      unfold hyphen_only in Hl. rewrite forallb_forall in Hl.
      specialize (Hl c Hc). apply Ascii.eqb_eq in Hl. subst. discriminate Ha. }
    destruct (strip_hyphen_head _ _ _ Hl) as [x Hx].
    pose proof (lstrip_hyphen_head _ _ _ Hl) as Hc.
    assert (Hincl := strip_hyphen_incl kept). rewrite Hx in Hincl |- *.
    destruct (100 <? length (c :: x))%nat eqn:Hlen.
    + destruct x as [|y x]; [discriminate Hlen|].
      change (take 100 (c :: y :: x)) with (c :: take 99 (y :: x)).
      cbv beta iota. rewrite list_ascii_of_string_of_list_ascii.
      split; [|split].
      * cbn [length]. rewrite length_take. lia.
      * apply forallb_forall. intros z Hz. apply Hkept, Hincl.
        destruct Hz as [<-|Hz]; [left; reflexivity|right].
        rewrite <- (firstn_skipn 99 (y :: x)). apply in_or_app. left. exact Hz.
      * simpl. intros H; inversion H; subst. rewrite Ascii.eqb_refl in Hc. discriminate.
    + cbv beta iota. rewrite list_ascii_of_string_of_list_ascii.
      apply Nat.ltb_ge in Hlen.
      split; [|split].
      * cbn [length] in *. lia.
      * apply forallb_forall. intros z Hz. apply Hkept, Hincl, Hz.
      * simpl. intros H; inversion H; subst. rewrite Ascii.eqb_refl in Hc. discriminate.
Qed.


(** [create_and_deploy_repo] raises [ValueError] before any call to GitHub
    when the token or the user name is not configured. *)
Theorem create_and_deploy_requires_credentials (cfg : gh_config) (now : clock)
    (gh_create : create_repo_args -> Result string)
    (git_push : list (string * string) -> Result string)
    (task_name : string) (app_code : CodeGenerator.artifact) (brief : string)
    (checks : list pyval)
    (H : GITHUB_TOKEN cfg = "" \/ GITHUB_USERNAME cfg = "") :
  create_and_deploy_repo cfg now gh_create git_push task_name app_code brief checks
  = Raise (ValueError (if String.eqb (GITHUB_TOKEN cfg) "" then "GITHUB_TOKEN not configured"
                       else "GITHUB_USERNAME not configured")).
Proof.
  unfold create_and_deploy_repo, create_repo_request.
  destruct (String.eqb (GITHUB_TOKEN cfg) "") eqn:Et; [reflexivity|].
  destruct H as [H|H]; [rewrite H in Et; discriminate|].
  rewrite H. reflexivity.
Qed.


Definition gh_create0 (_ : create_repo_args) : Result string := Ok "https://github.com/user/Clock-App".
Definition git_push0 (_ : list (string * string)) : Result string := Ok "abc123".


Lemma create_and_deploy_requires_credentials_witness :
  create_and_deploy_repo {| GITHUB_TOKEN := ""; GITHUB_USERNAME := "user" |} now0
    gh_create0 git_push0 "Clock App!" [] "clock" []
  = Raise (ValueError "GITHUB_TOKEN not configured").
Proof.
  exact (create_and_deploy_requires_credentials {| GITHUB_TOKEN := ""; GITHUB_USERNAME := "user" |}
           now0 gh_create0 git_push0 "Clock App!" [] "clock" [] (or_introl eq_refl)).
Defined.


End GithubMore.

(** ** code_generator.py: template, attachments and backends *)

Module GeneratorMore.
Import CodeGenerator.

(** ** Substrings *)

Lemma append_cons (c : ascii) (s t : string) : String c s +:+ t = String c (s +:+ t).
Proof. reflexivity. Qed.

Lemma append_nil (s : string) : s +:+ "" = s.
Proof. induction s as [|c s IH]; [reflexivity|]. rewrite append_cons, IH. reflexivity. Qed.

Lemma prefix_app (a s : string) : String.prefix a (a +:+ s) = true.
Proof.
  induction a as [|c a IH]; [destruct s; reflexivity|].
  rewrite append_cons. simpl. destruct (ascii_dec c c); [exact IH|contradiction].
Qed.

Lemma str_contains_self (a s : string) : str_contains a (a +:+ s) = true.
Proof.
  destruct a as [|c a]; [destruct s; reflexivity|].
  pose proof (prefix_app (String c a) s) as H. rewrite append_cons in *. simpl. simpl in H.
  rewrite H. reflexivity.
Qed.

Lemma str_contains_app_l (n a s : string) :
  str_contains n s = true -> str_contains n (a +:+ s) = true.
Proof.
  intros H. induction a as [|c a IH]; [exact H|].
  change (String c a +:+ s) with (String c (a +:+ s)). simpl str_contains.
  rewrite IH. match goal with |- (if ?b then _ else _) = _ => destruct b end; reflexivity.
Qed.

Lemma str_contains_join (x sep : string) (l : list string) :
  In x l -> str_contains x (join sep l) = true.
Proof.
  induction l as [|y l IH]; intros Hin; [destruct Hin|].
  destruct Hin as [Hyx|Hin]; [subst y|].
  - destruct l as [|z l]; cbn [join].
    + rewrite <- (append_nil x) at 2. apply str_contains_self.
    + apply str_contains_self.
  - destruct l as [|z l]; [destruct Hin|].
    cbn [join]. apply str_contains_app_l, str_contains_app_l. apply IH, Hin.
Qed.


Lemma append_assoc (a b c : string) : (a +:+ b) +:+ c = a +:+ (b +:+ c).
Proof. induction a as [|x a IH]; [reflexivity|]. rewrite !append_cons, IH. reflexivity. Qed.

Lemma prefix_true (n h : string) : String.prefix n h = true -> exists q, h = n +:+ q.
Proof.
  revert h. induction n as [|c n IH]; intros h H; [exists h; reflexivity|].
  destruct h as [|x h]; simpl in H; [discriminate H|].
  destruct (ascii_dec c x) as [<-|]; [|discriminate H].
  destruct (IH h H) as [q ->]. exists q. reflexivity.
Qed.

Lemma str_contains_unfold (n h : string) :
  str_contains n h =
  if String.prefix n h then true
  else match h with EmptyString => false | String _ h' => str_contains n h' end.
Proof. destruct h; reflexivity. Qed.

Lemma str_contains_split (n h : string) :
  str_contains n h = true -> exists p q, h = p +:+ (n +:+ q).
Proof.
  induction h as [|x h IH]; intros H; rewrite str_contains_unfold in H.
  - destruct (String.prefix n "") eqn:Hp; [|discriminate H].
    destruct (prefix_true _ _ Hp) as [q Hq]. exists "", q. exact Hq.
  - destruct (String.prefix n (String x h)) eqn:Hp.
    + destruct (prefix_true _ _ Hp) as [q Hq]. exists "", q. exact Hq.
    + destruct (IH H) as (p & q & ->). exists (String x p), q. reflexivity.
Qed.

Lemma str_contains_app_r (n a s : string) :
  str_contains n a = true -> str_contains n (a +:+ s) = true.
Proof.
  intros H. destruct (str_contains_split _ _ H) as (p & q & ->).
  rewrite !append_assoc. apply str_contains_app_l, str_contains_self.
Qed.

(** A one-character needle absent from a string. *)
Lemma no_char_cons (c x : ascii) (s : string) :
  str_contains (String c "") (String x s) = false ->
  c <> x /\ str_contains (String c "") s = false.
Proof.
  simpl. destruct (ascii_dec c x) as [->|Hne].
  - destruct s; discriminate.
  - intros H. split; [exact Hne|]. exact H.
Qed.

Lemma split_once_app (c : ascii) (a s : string) :
  str_contains (String c "") a = false ->
  split_once c (a +:+ s) =
  match split_once c s with Some (x, y) => Some (a +:+ x, y) | None => None end.
Proof.
  induction a as [|x a IH]; intros H.
  - change ("" +:+ s) with s. destruct (split_once c s) as [[? ?]|]; reflexivity.
  - apply no_char_cons in H as [Hne H]. rewrite append_cons. cbn [split_once].
    replace (Ascii.eqb c x) with false
      by (symmetry; apply Ascii.eqb_neq; exact Hne).
    rewrite (IH H). destruct (split_once c s) as [[? ?]|]; reflexivity.
Qed.

Lemma split_on_nonnil (c : ascii) (s : string) : Validator.split_on c s <> [].
Proof.
  destruct s as [|x s]; cbn [Validator.split_on]; [discriminate|].
  destruct (Ascii.eqb c x); [discriminate|]. destruct (Validator.split_on c s); discriminate.
Qed.

Lemma split_on_app (c : ascii) (a s : string) :
  str_contains (String c "") a = false ->
  Validator.split_on c (a +:+ s) =
  match Validator.split_on c s with w :: ws => (a +:+ w) :: ws | [] => [a] end.
Proof.
  induction a as [|x a IH]; intros H.
  - change ("" +:+ s) with s. destruct (Validator.split_on c s) eqn:E; [|reflexivity].
    exfalso. exact (split_on_nonnil c s E).
  - apply no_char_cons in H as [Hne H]. rewrite append_cons. cbn [Validator.split_on].
    replace (Ascii.eqb c x) with false
      by (symmetry; apply Ascii.eqb_neq; exact Hne).
    rewrite (IH H). destruct (Validator.split_on c s); reflexivity.
Qed.

Definition is_str (v : pyval) : bool := match v with VStr _ => true | _ => false end.

Definition is_dict (v : pyval) : bool := match v with VDict _ => true | _ => false end.

Lemma forallb_false_ex {A : Type} (f : A -> bool) (l : list A) :
  forallb f l = false <-> exists v, In v l /\ f v = false.
Proof.
  induction l as [|x l IH]; cbn [forallb In].
  - split; [discriminate|intros (v & [] & _)].
  - destruct (f x) eqn:Hx; cbn [andb].
    + rewrite IH. split.
      * intros (v & Hv & Hf). eauto.
      * intros (v & [<-|Hv] & Hf); [congruence|eauto].
    + split; [intros _; eauto|reflexivity].
Qed.

Section WithDecoders.
Variable b64decode : string -> option (list Byte.byte).
Variable utf8_decode : list Byte.byte -> option string.

Lemma dash_items_ok (checks : list pyval) :
  forallb is_str checks = true ->
  dash_items checks = Ok (map (fun v => "- " +:+ py_str v) checks).
Proof.
  induction checks as [|v checks IH]; intros H; [reflexivity|].
  simpl in H. destruct v; try discriminate H. cbn [dash_items].
  rewrite (IH H). reflexivity.
Qed.

Lemma dash_items_raise (checks : list pyval) (e : exc) :
  dash_items checks = Raise e <-> e = TypeError /\ forallb is_str checks = false.
Proof.
  induction checks as [|v checks IH]; cbn [dash_items forallb].
  - split; [discriminate|intros [_ H]; discriminate H].
  - destruct v; cbn [is_str andb]; try (split; [intros H; inversion H; auto|intros [-> _]; reflexivity]).
    destruct (dash_items checks) as [r|e'] eqn:Hd; cbn [rbind].
    + split; [discriminate|]. intros Hx. apply IH in Hx. discriminate Hx.
    + exact IH.
Qed.

(** [generate_template_code] raises exactly when some check is not a
    string, and then raises [TypeError] (from ['- ' + check]). *)
Theorem template_code_raises_iff (brief : string) (checks : list pyval)
    (ds : list decoded) (e : exc) :
  generate_template_code brief checks ds = Raise e <->
  e = TypeError /\ exists v, In v checks /\ is_str v = false.
Proof.
  unfold generate_template_code.
  pose proof (forallb_false_ex is_str checks) as Hex.
  destruct checks as [|v rest].
  - cbn [rbind]. split; [discriminate|]. intros [_ (v & [] & _)].
  - destruct (dash_items (v :: rest)) as [items|e'] eqn:Hd; cbn [rbind].
    + split; [discriminate|]. intros [-> Hv]. apply Hex in Hv.
      assert (Hr : dash_items (v :: rest) = Raise TypeError)
        by (apply dash_items_raise; auto).
      congruence.
    + apply dash_items_raise in Hd as [-> Hf]. rewrite <- Hex.
      split; [intros H; inversion H; auto|intros [-> _]; reflexivity].
Qed.


(** With string checks, [generate_template_code] returns the template
    page, which shows the brief, and a README that holds the brief and one
    line ["- " + check] per check. *)
Theorem template_code_ok (brief : string) (checks : list pyval) (ds : list decoded)
    (Hs : forallb is_str checks = true) :
  exists readme,
    generate_template_code brief checks ds
    = Ok [("index.html", html_template brief); ("README.md", readme)]
    /\ str_contains brief (html_template brief) = true
    /\ str_contains brief readme = true
    /\ (forall s, In (VStr s) checks -> str_contains ("- " +:+ s) readme = true).
Proof.
  unfold generate_template_code.
  set (req := match checks with
              | [] => Ok "No specific checks provided."
              | _ => let* items := dash_items checks in Ok (join nl items)
              end).
  assert (Hreq : exists r, req = Ok r /\
            forall s, In (VStr s) checks -> str_contains ("- " +:+ s) r = true).
  { unfold req. destruct checks as [|v rest].
    - exists "No specific checks provided.". split; [reflexivity|intros s []].
    - rewrite (dash_items_ok _ Hs). cbn [rbind]. eexists; split; [reflexivity|].
      intros s Hin. apply str_contains_join.
      apply in_map_iff. exists (VStr s). split; [reflexivity|exact Hin]. }
  destruct Hreq as (r & -> & Hr). cbn [rbind].
  eexists; split; [reflexivity|]. split; [|split].
  - unfold html_template. apply str_contains_app_l, str_contains_self.
  - apply str_contains_app_l, str_contains_self.
  - intros s Hin. apply str_contains_app_l, str_contains_app_l, str_contains_app_l,
      str_contains_app_r, Hr, Hin.
Qed.

Lemma decode_attachment_dict (d : list (string * pyval)) :
  exists o, decode_attachment b64decode utf8_decode (VDict d) = Ok o.
Proof.
  unfold decode_attachment, py_try.
  destruct (decode_body b64decode utf8_decode (VDict d)); eauto.
Qed.

(** The attachment loop of [generate_app_code] raises exactly when some
    attachment is not a dict ([AttributeError] from the handler's
    [attachment.get]); a dict attachment never makes it raise. *)
Theorem decode_all_raises_iff (attachments : list pyval) (e : exc) :
  decode_all b64decode utf8_decode attachments = Raise e <->
  e = AttributeError /\ exists a, In a attachments /\ is_dict a = false.
Proof.
  induction attachments as [|a rest IH]; cbn [decode_all].
  - split; [discriminate|intros [_ (a & [] & _)]].
  - destruct a as [|b|z|s|l|d].
    6:{ cbn [is_dict]. destruct (decode_attachment_dict d) as [o ->]. cbn [rbind].
        destruct (decode_all b64decode utf8_decode rest) as [ds|e'] eqn:Hr; cbn [rbind].
        - split; [discriminate|]. intros [-> (a & [<-|Ha] & Hd)]; [discriminate Hd|].
          assert (Hx : @Ok (list decoded) ds = Raise AttributeError) by (apply IH; eauto).
          discriminate Hx.
        - rewrite IH. split.
          + intros [-> (a & Ha & Hd)]. split; [reflexivity|exists a; split; [right|]; assumption].
          + intros [-> (a & [<-|Ha] & Hd)]; [discriminate Hd|].
            split; [reflexivity|exists a; split; assumption]. }
    all: cbn; split; [intros H; inversion H; subst; split; [reflexivity|eexists; split;
           [left; reflexivity|reflexivity]]|intros [-> _]; reflexivity].
Qed.

(** With the three backends of code_generator.py, [generate_app_code]
    uses the AI Pipeline when its key is set and falls back to the
    template on any failure of it (a status other than 200, a network
    error, a malformed body); the Anthropic and OpenAI keys never change
    the result, since both of those backends always raise. *)
Theorem generate_app_code_backends (cfg : gen_config)
    (aipipe : string -> LLMBackends.api_reply)
    (brief : string) (checks attachments : list pyval) :
  generate_app_code b64decode utf8_decode cfg (LLMBackends.backends aipipe) brief checks attachments
  = let* ds := decode_all b64decode utf8_decode attachments in
    let template := generate_template_code brief checks ds in
    if String.eqb (AIPIPE_API_KEY cfg) "" then template
    else match aipipe (build_generation_prompt brief checks ds) with
         | LLMBackends.AReply status _ (Ok t) =>
             if Z.eqb status 200 then Ok (LLMBackends.parse_llm_response t) else template
         | _ => template
         end.
Proof.
  unfold generate_app_code.
  destruct (decode_all b64decode utf8_decode attachments) as [ds|e]; cbn [rbind]; [|reflexivity].
  destruct (String.eqb (AIPIPE_API_KEY cfg) "") eqn:Ha; cbn [negb].
  - destruct (String.eqb (ANTHROPIC_API_KEY cfg) ""); cbn [negb];
      [destruct (String.eqb (OPENAI_API_KEY cfg) ""); cbn [negb]|];
      unfold py_try; cbn; [destruct (generate_template_code _ _ _)|..]; reflexivity.
  - cbn [LLMBackends.backends]. unfold LLMBackends.generate_with_aipipe, py_try.
    destruct (aipipe _) as [status text [t|e]|msg]; cbn [negb rbind]; try reflexivity;
      destruct (Z.eqb status 200); reflexivity.
Qed.

(** A data URI ["data:<mime>;base64,<payload>"] whose MIME type has no
    [','], [';'] or [':'] decodes to the attachment's name, that MIME type
    and the base64-decoded payload, as text when the MIME type is a text
    type and the bytes are UTF-8, as bytes otherwise. *)
Theorem decode_data_uri (d : list (string * pyval)) (name : pyval)
    (mime payload : string) (raw : list Byte.byte) (text : string)
    (Hurl : dict_get "url" d = Some (VStr ("data:" +:+ mime +:+ ";base64," +:+ payload)))
    (Hname : dict_get "name" d = Some name)
    (Hcomma : str_contains "," mime = false)
    (Hsemi : str_contains ";" mime = false)
    (Hcolon : str_contains ":" mime = false)
    (Hb64 : b64decode payload = Some raw)
    (Hutf : is_text_mime mime = true -> utf8_decode raw = Some text) :
  decode_attachment b64decode utf8_decode (VDict d)
  = Ok (Some {| att_name := name; mime_type := mime;
                att_content := if is_text_mime mime then CText text else CBytes raw |}).
Proof.
  unfold decode_attachment, py_try, decode_body. cbn [py_getitem]. rewrite Hurl. cbn [rbind].
  rewrite (prefix_app "data:" _ : startswith "data:" _ = true).
  assert (Hs1 : split_once ","%char ("data:" +:+ mime +:+ ";base64," +:+ payload)
                = Some ("data:" +:+ mime +:+ ";base64", payload)).
  { rewrite (split_once_app ","%char "data:" _ eq_refl), (split_once_app _ _ _ Hcomma). reflexivity. }
  assert (Hs2 : Validator.split_on ":"%char ("data:" +:+ mime +:+ ";base64")
                = ["data"; mime +:+ ";base64"]).
  { change ("data:" +:+ ?x) with ("data" +:+ String ":" x).
    rewrite (split_on_app ":"%char "data" _ eq_refl). cbn [Validator.split_on Ascii.eqb Bool.eqb].
    rewrite (split_on_app _ _ _ Hcolon). reflexivity. }
  assert (Hs3 : Validator.split_on ";"%char (mime +:+ ";base64") = [mime; "base64"]).
  { rewrite (split_on_app _ _ _ Hsemi).
    replace (Validator.split_on ";"%char ";base64") with [""; "base64"] by reflexivity.
    cbv beta iota. rewrite append_nil. reflexivity. }
  rewrite Hs1. cbv beta iota zeta. rewrite Hs2. cbn [py_index1 rbind]. rewrite Hs3.
  cbn [List.hd].
  rewrite Hb64.
  destruct (is_text_mime mime) eqn:Ht.
  - rewrite (Hutf eq_refl). cbn [rbind py_getitem]. rewrite Hname. reflexivity.
  - cbn [rbind py_getitem]. rewrite Hname. reflexivity.
Qed.

End WithDecoders.


(** Stand-ins for the decoders on a concrete run. *)
Definition b64_sample (s : string) : option (list Byte.byte) :=
  if String.eqb s "aGk=" then Some [Byte.x68; Byte.x69] else None.
Definition utf8_sample (b : list Byte.byte) : option string :=
  match b with [Byte.x68; Byte.x69] => Some "hi" | _ => None end.

Lemma template_code_ok_witness :
  exists readme,
    generate_template_code "clock" [VStr "shows time"] []
    = Ok [("index.html", html_template "clock"); ("README.md", readme)]
    /\ str_contains "clock" (html_template "clock") = true
    /\ str_contains "clock" readme = true
    /\ (forall s, In (VStr s) [VStr "shows time"] -> str_contains ("- " +:+ s) readme = true).
Proof. exact (template_code_ok "clock" [VStr "shows time"] [] eq_refl). Defined.

Lemma decode_data_uri_witness :
  decode_attachment b64_sample utf8_sample
    (VDict [("name", VStr "a.txt"); ("url", VStr "data:text/plain;base64,aGk=")])
  = Ok (Some {| att_name := VStr "a.txt"; mime_type := "text/plain"; att_content := CText "hi" |}).
Proof.
  exact (decode_data_uri b64_sample utf8_sample
           [("name", VStr "a.txt"); ("url", VStr "data:text/plain;base64,aGk=")]
           (VStr "a.txt") "text/plain" "aGk=" [Byte.x68; Byte.x69] "hi"
           eq_refl eq_refl eq_refl eq_refl eq_refl eq_refl (fun _ => eq_refl)).
Defined.

End GeneratorMore.

(** ** code_generator.py: [parse_llm_response] and the pushed files *)

Module ParseMore.
Import CodeGenerator LLMBackends GeneratorMore.

Lemma length_append (a b : string) : String.length (a +:+ b) = (String.length a + String.length b)%nat.
Proof. induction a as [|c a IH]; [reflexivity|]. rewrite append_cons. simpl. rewrite IH. reflexivity. Qed.

Lemma index_shift (k : nat) (pat a s : string) :
  String.index (String.length a + k) pat (a +:+ s)
  = match String.index k pat s with Some n => Some (String.length a + n)%nat | None => None end.
Proof.
  induction a as [|c a IH]; cbn [String.length Nat.add].
  - change ("" +:+ s) with s. destruct (String.index k pat s); reflexivity.
  - rewrite append_cons. cbn [String.index]. rewrite IH.
    destruct (String.index k pat s); reflexivity.
Qed.

(** A pattern starting with a backtick is not found inside a text without
    backticks. *)
Lemma index_skip0 (p : string) (a s : string) :
  str_contains "`" a = false ->
  String.index 0 (String "`" p) (a +:+ s)
  = match String.index 0 (String "`" p) s with Some n => Some (String.length a + n)%nat | None => None end.
Proof.
  induction a as [|c a IH]; intros H.
  - change ("" +:+ s) with s. destruct (String.index 0 _ s); reflexivity.
  - apply no_char_cons in H as [Hne H]. rewrite append_cons. cbn [String.index].
    replace (String.prefix (String "`" p) (String c (a +:+ s))) with false
      by (cbn [String.prefix]; destruct (ascii_dec "`" c); [contradiction|reflexivity]).
    rewrite (IH H). destruct (String.index 0 _ s); reflexivity.
Qed.

Lemma index_self (p r : string) : String.index 0 (String "`" p) (String "`" p +:+ r) = Some 0%nat.
Proof. rewrite append_cons. cbn [String.index]. rewrite <- append_cons, prefix_app. reflexivity. Qed.

Lemma substring_shift (k m : nat) (a s : string) :
  String.substring (String.length a + k) m (a +:+ s) = String.substring k m s.
Proof. induction a as [|c a IH]; [reflexivity|]. rewrite append_cons. exact IH. Qed.

Lemma substring_prefix (b s : string) : String.substring 0 (String.length b) (b +:+ s) = b.
Proof.
  induction b as [|c b IH]; [destruct s; reflexivity|].
  rewrite append_cons. cbn [String.length String.substring]. rewrite IH. reflexivity.
Qed.

(** An LLM answer ["...```html<body>```..."], with no backtick before the
    fence nor inside the body, yields the stripped body as index.html. *)
Theorem parse_fenced_html (pre body post : string)
    (Hpre : str_contains "`" pre = false) (Hbody : str_contains "`" body = false) :
  GithubManager.art_get "index.html"
    (parse_llm_response (pre +:+ "```html" +:+ body +:+ "```" +:+ post))
  = Some (py_strip body).
Proof.
  set (t := pre +:+ "```html" +:+ body +:+ "```" +:+ post).
  unfold parse_llm_response.
  assert (Hc : str_contains "```html" t = true)
    by (apply str_contains_app_l, str_contains_self).
  rewrite Hc.
  assert (Hf1 : py_find "```html" t 0 = Z.of_nat (String.length pre)).
  { unfold py_find, t. rewrite (index_skip0 "``html" _ _ Hpre), index_self.
    rewrite Nat.add_0_r. reflexivity. }
  rewrite Hf1.
  replace (Z.to_nat (Z.of_nat (String.length pre) + 7))
    with (String.length pre + (String.length "```html" + 0))%nat by (cbn; lia).
  assert (Hf2 : py_find fence t (String.length pre + (String.length "```html" + 0))
                = Z.of_nat (String.length pre + 7 + String.length body)).
  { unfold py_find, t, fence. rewrite index_shift, index_shift.
    rewrite (index_skip0 "``" _ _ Hbody), index_self. f_equal. cbn. lia. }
  rewrite Hf2. cbn [GithubManager.art_get String.eqb]. f_equal. f_equal.
  unfold py_slice.
  assert (Hlen : String.length t =
    (String.length pre + 7 + String.length body + 3 + String.length post)%nat)
    by (unfold t; rewrite !length_append; cbn; lia).
  rewrite Hlen.
  replace (Z.of_nat (String.length pre) + 7 <? 0)%Z with false by (symmetry; apply Z.ltb_ge; lia).
  replace (Z.of_nat (String.length pre + 7 + String.length body) <? 0)%Z with false by (symmetry; apply Z.ltb_ge; lia).
  rewrite !Z.min_l by lia.
  destruct (Z.of_nat (String.length pre + 7 + String.length body) <=?
            Z.of_nat (String.length pre) + 7)%Z eqn:Hle.
  - apply Z.leb_le in Hle. destruct body; [reflexivity|]. cbn in Hle. lia.
  - replace (Z.to_nat (Z.of_nat (String.length pre) + 7))
      with (String.length pre + (String.length "```html" + 0))%nat by (cbn; lia).
    replace (Z.to_nat (Z.of_nat (String.length pre + 7 + String.length body)
                       - (Z.of_nat (String.length pre) + 7)))
      with (String.length body) by lia.
    unfold t. rewrite substring_shift, substring_shift. apply substring_prefix.
Qed.


(** An LLM answer whose ["```html"] fence is never closed (no backtick
    before the fence nor after it): [find] returns [-1], and the slice
    [start:-1] drops the last character of the body. *)
Theorem parse_unterminated_html (pre body : string)
    (Hpre : str_contains "`" pre = false) (Hbody : str_contains "`" body = false) :
  GithubManager.art_get "index.html" (parse_llm_response (pre +:+ "```html" +:+ body))
  = Some (py_strip (String.substring 0 (String.length body - 1) body)).
Proof.
  set (t := pre +:+ "```html" +:+ body).
  unfold parse_llm_response.
  assert (Hc : str_contains "```html" t = true)
    by (apply str_contains_app_l, str_contains_self).
  rewrite Hc.
  assert (Hf1 : py_find "```html" t 0 = Z.of_nat (String.length pre)).
  { unfold py_find, t. rewrite (index_skip0 "``html" _ _ Hpre), index_self.
    rewrite Nat.add_0_r. reflexivity. }
  rewrite Hf1.
  replace (Z.to_nat (Z.of_nat (String.length pre) + 7))
    with (String.length pre + (String.length "```html" + 0))%nat by (cbn; lia).
  assert (Hn : String.index 0 "```" body = None).
  { rewrite <- (append_nil body). rewrite (index_skip0 "``" _ _ Hbody). reflexivity. }
  assert (Hf2 : py_find fence t (String.length pre + (String.length "```html" + 0)) = (-1)%Z).
  { unfold py_find, t, fence. rewrite index_shift, index_shift, Hn. reflexivity. }
  rewrite Hf2. cbn [GithubManager.art_get String.eqb]. f_equal. f_equal.
  unfold py_slice.
  assert (Hlen : String.length t = (String.length pre + 7 + String.length body)%nat)
    by (unfold t; rewrite !length_append; cbn; lia).
  rewrite Hlen.
  replace (Z.of_nat (String.length pre) + 7 <? 0)%Z with false
    by (symmetry; apply Z.ltb_ge; lia).
  replace (-1 <? 0)%Z with true by reflexivity.
  rewrite Z.min_l by lia.
  rewrite Z.max_r by lia.
  destruct (-1 + Z.of_nat (String.length pre + 7 + String.length body) <=?
            Z.of_nat (String.length pre) + 7)%Z eqn:Hle.
  - apply Z.leb_le in Hle.
    replace (String.length body - 1)%nat with 0%nat by lia. destruct body; reflexivity.
  - apply Z.leb_gt in Hle.
    replace (Z.to_nat (Z.of_nat (String.length pre) + 7))
      with (String.length pre + (String.length "```html" + 0))%nat by (cbn; lia).
    replace (Z.to_nat (-1 + Z.of_nat (String.length pre + 7 + String.length body)
                       - (Z.of_nat (String.length pre) + 7)))
      with (String.length body - 1)%nat by lia.
    unfold t. rewrite substring_shift, substring_shift. reflexivity.
Qed.

(** An LLM answer with none of the markers [parse_llm_response] looks for
    gives a pushed tree without index.html and with an empty README.md
    (the generated README is not used, since the key is present): only
    the LICENSE has content. *)
Theorem llm_reply_without_markers_files (now : GithubManager.clock) (t brief : string)
    (checks : list pyval)
    (Hhtml : str_contains "```html" t = false)
    (Hdoctype : str_contains "<!DOCTYPE html>" t = false)
    (Hmarkdown : str_contains "```markdown" t = false)
    (Hmd : str_contains "```md" t = false) :
  GithubManager.written_files now (parse_llm_response t) brief checks
  = [("README.md", ""); ("LICENSE", GithubManager.get_mit_license now)].
Proof.
  unfold parse_llm_response. rewrite Hhtml, Hdoctype, Hmarkdown, Hmd.
  destruct (str_contains "README" t || str_contains "readme" t); reflexivity.
Qed.

Lemma parse_fenced_html_witness :
  GithubManager.art_get "index.html"
    (parse_llm_response ("Here it is: " +:+ "```html" +:+ " <p>hi</p> " +:+ "```" +:+ " Done."))
  = Some (py_strip " <p>hi</p> ").
Proof. exact (parse_fenced_html "Here it is: " " <p>hi</p> " " Done." eq_refl eq_refl). Defined.

Lemma parse_unterminated_html_witness :
  GithubManager.art_get "index.html" (parse_llm_response ("Sure: " +:+ "```html" +:+ "<p>hi</p>"))
  = Some (py_strip (String.substring 0 (String.length "<p>hi</p>" - 1) "<p>hi</p>")).
Proof. exact (parse_unterminated_html "Sure: " "<p>hi</p>" eq_refl eq_refl). Defined.

Lemma llm_reply_without_markers_files_witness :
  GithubManager.written_files now0 (parse_llm_response "I cannot help with that.") "clock" []
  = [("README.md", ""); ("LICENSE", GithubManager.get_mit_license now0)].
Proof.
  exact (llm_reply_without_markers_files now0 "I cannot help with that." "clock" []
           eq_refl eq_refl eq_refl eq_refl).
Defined.

End ParseMore.
